(** * DenseUAV/image.py: dividing an image into square patches

    A shallow embedding of [divide_image_into_patches] and the properties
    of its grid search and of its patch-emission loop.

    Python integers are unbounded, hence [Z].  Python's [//] and [%] round
    towards minus infinity, as [Z.div] and [Z.modulo] do; where the divisor
    is zero Python raises [ZeroDivisionError], which the embedding makes
    explicit.  [int(math.sqrt n)] is taken to be the integer square root
    of [n] (the double-precision square root is exact enough for every
    [n] below [2^52]); on a negative [n] it raises [ValueError]. *)

From Stdlib Require Import Ascii.
From stdpp Require Import base numbers list sorting strings gmap pretty.

Open Scope Z_scope.

(** ** Exceptions and results *)

Inductive exn : Type :=
  | FileNotFoundError (msg : string)
  | FileExistsError (path : string)
  | IsADirectoryError (path : string)
  | ZeroDivisionError
  | ValueError.

Inductive result (A : Type) : Type :=
  | Ok (a : A)
  | Raise (e : exn).
Arguments Ok {A} a.
Arguments Raise {A} e.

#[global] Instance result_ret : MRet result := λ A a, Ok a.
#[global] Instance result_bind : MBind result := λ A B f m,
  match m with
  | Ok a => f a
  | Raise e => Raise e
  end.

(** ** Python arithmetic *)

Definition py_floordiv (a b : Z) : result Z :=
  if b =? 0 then Raise ZeroDivisionError else Ok (a / b).

Definition py_mod (a b : Z) : result Z :=
  if b =? 0 then Raise ZeroDivisionError else Ok (a `mod` b).

(** [int(math.sqrt(n))] *)
Definition py_int_sqrt (n : Z) : result Z :=
  if n <? 0 then Raise ValueError else Ok (Z.sqrt n).

(** [range(a, b)] *)
Definition py_range (a b : Z) : list Z := seqZ a (b - a).

(** [for x in l: s = body x s], any exception leaving the loop. *)
Fixpoint for_in {S : Type} (l : list Z) (body : Z → S → result S)
    (s : S) : result S :=
  match l with
  | [] => Ok s
  | x :: l' => s' ← body x s; for_in l' body s'
  end.

(** ** The grid search (image.py, lines 42-92) *)

(** [best_score] starts as [float('inf')], above every integer. *)
Inductive score_t : Type :=
  | Inf
  | Fin (z : Z).

Definition score_lt (s : Z) (best : score_t) : bool :=
  match best with
  | Inf => true
  | Fin b => s <? b
  end.

Record search : Type := Search {
  best_arrangement : option (Z * Z * Z);
  best_score : score_t
}.

Definition search_init : search :=
  {| best_arrangement := None; best_score := Inf |}.

Section GridSearch.
Variables width height target_N : Z.

(** The score of one arrangement (lines 63-66). *)
Definition score_of (actual_N patch_h patch_w : Z) : Z :=
  if actual_N =? target_N then Z.abs (patch_h - patch_w)
  else Z.abs (actual_N - target_N) * 1000 + Z.abs (patch_h - patch_w).

(** One iteration of the loop of line 46. *)
Definition try_arrangement (num_patches_y : Z) (st : search)
    : result search :=
  r ← py_mod target_N num_patches_y;
  if r =? 0 then
    num_patches_x ← py_floordiv target_N num_patches_y;
    patch_h ← py_floordiv height num_patches_y;
    patch_w ← py_floordiv width num_patches_x;
    let patch_size_candidate := Z.min patch_h patch_w in
    actual_num_x ← py_floordiv width patch_size_candidate;
    actual_num_y ← py_floordiv height patch_size_candidate;
    let actual_N := actual_num_x * actual_num_y in
    let score := score_of actual_N patch_h patch_w in
    if score_lt score (best_score st) && (0 <? patch_size_candidate) then
      Ok {| best_arrangement :=
              Some (num_patches_y, num_patches_x, patch_size_candidate);
            best_score := Fin score |}
    else Ok st
  else Ok st.

(** Lines 42-70: the whole loop. *)
Definition search_arrangements : result search :=
  root ← py_int_sqrt target_N;
  for_in (py_range 1 (root + 2)) try_arrangement search_init.

(** Lines 72-92: fallback, then the override for nine patches. *)
Definition choose_layout (st : search) : Z * Z * Z :=
  let '(num_patches_y, num_patches_x, patch_size) :=
    match best_arrangement st with
    | None => (3, 3, Z.min (width / 3) (height / 3))
    | Some arrangement => arrangement
    end in
  if target_N =? 9 then (3, 3, Z.min (width / 3) (height / 3))
  else (num_patches_y, num_patches_x, patch_size).

(** The Grid Planner: rows, columns and edge length. *)
Definition plan_grid : result (Z * Z * Z) :=
  st ← search_arrangements;
  mret (choose_layout st).
End GridSearch.

(** ** Paths and text (posixpath, f-strings) *)

Definition newline : string := String "010"%char "".

(** [str(i)] inside an f-string. *)
Definition py_str (i : Z) : string := pretty i.

(** Splitting at the last occurrence of [c]: [Some (before, after)]. *)
Fixpoint rsplit (c : ascii) (s : string) : option (string * string) :=
  match s with
  | EmptyString => None
  | String a s' =>
      match rsplit c s' with
      | Some (h, t) => Some (String a h, t)
      | None => if Ascii.eqb a c then Some (EmptyString, s') else None
      end
  end.

Fixpoint all_chars (c : ascii) (s : string) : bool :=
  match s with
  | EmptyString => true
  | String a s' => Ascii.eqb a c && all_chars c s'
  end.

Fixpoint has_char (c : ascii) (s : string) : bool :=
  match s with
  | EmptyString => false
  | String a s' => Ascii.eqb a c || has_char c s'
  end.

Definition starts_with_char (c : ascii) (s : string) : bool :=
  match s with
  | EmptyString => false
  | String a _ => Ascii.eqb a c
  end.

Definition ends_with_char (c : ascii) (s : string) : bool :=
  starts_with_char c (String.rev s).

(** [s.rstrip(c)] *)
Definition rstrip (c : ascii) (s : string) : string :=
  let fix lstrip (s : string) : string :=
    match s with
    | EmptyString => EmptyString
    | String a s' => if Ascii.eqb a c then lstrip s' else s
    end in
  String.rev (lstrip (String.rev s)).

(** [os.path.basename] *)
Definition os_path_basename (p : string) : string :=
  match rsplit "/" p with
  | Some (_, t) => t
  | None => p
  end.

(** [os.path.dirname] *)
Definition os_path_dirname (p : string) : string :=
  match rsplit "/" p with
  | Some (h, _) =>
      let head := h +:+ "/" in
      if all_chars "/" head then head else rstrip "/" head
  | None => ""
  end.

(** [os.path.splitext]: a leading run of dots belongs to the root. *)
Definition os_path_splitext (p : string) : string * string :=
  let '(dir, name) :=
    match rsplit "/" p with
    | Some (h, t) => (h +:+ "/", t)
    | None => ("", p)
    end in
  match rsplit "." name with
  | Some (stem, ext) =>
      if all_chars "." stem then (p, "")
      else (dir +:+ stem, String "." ext)
  | None => (p, "")
  end.

(** [os.path.join] of two components. *)
Definition os_path_join (a b : string) : string :=
  if starts_with_char "/" b then b
  else if String.eqb a "" || ends_with_char "/" a then a +:+ b
  else a +:+ "/" +:+ b.

(** ** Images and the file system *)

(** An image is known by its size and by how it was obtained; pixel values
    play no part in the function's control flow. *)
Inductive image : Type :=
  | Decoded (w h : Z)
  | Crop (img : image) (box : Z * Z * Z * Z)
  | Resize (img : image) (size : Z * Z).

(** [img.size] *)
Definition image_size (img : image) : Z * Z :=
  match img with
  | Decoded w h => (w, h)
  | Crop _ (x0, y0, x1, y1) => (x1 - x0, y1 - y0)
  | Resize _ size => size
  end.

(** The world the function runs in: the image files, the directories, and
    the patches saved so far, oldest first.  Text printed to the standard
    output is left out. *)
Record world : Type := World {
  files : gmap string image;
  dirs : gset string;
  saved : list (string * image)
}.

Definition io (A : Type) : Type := world → result A * world.

#[global] Instance io_ret : MRet io := λ A a w, (Ok a, w).
#[global] Instance io_bind : MBind io := λ A B f m w,
  match m w with
  | (Ok a, w') => f a w'
  | (Raise e, w') => (Raise e, w')
  end.

Definition io_raise {A : Type} (e : exn) : io A := λ w, (Raise e, w).
Definition io_lift {A : Type} (r : result A) : io A := λ w, (r, w).

(** [os.path.exists] *)
Definition os_path_exists (p : string) : io bool := λ w,
  (Ok (bool_decide (p ∈ dom (files w)) || bool_decide (p ∈ dirs w)), w).

(** [Image.open] *)
Definition Image_open (p : string) : io image := λ w,
  match files w !! p with
  | Some img => (Ok img, w)
  | None =>
      if bool_decide (p ∈ dirs w) then (Raise (IsADirectoryError p), w)
      else (Raise (FileNotFoundError p), w)
  end.

(** [os.makedirs(p, exist_ok=True)]; the directories above [p] are not
    tracked. *)
Definition os_makedirs (p : string) : io unit := λ w,
  if String.eqb p "" then (Raise (FileNotFoundError p), w)
  else if bool_decide (p ∈ dirs w) then (Ok (), w)
  else if bool_decide (p ∈ dom (files w)) then (Raise (FileExistsError p), w)
  else (Ok (), {| files := files w; dirs := {[p]} ∪ dirs w;
                  saved := saved w |}).

(** [patch.save(path)] *)
Definition Image_save (patch : image) (path : string) : io unit := λ w,
  (Ok (), {| files := <[path := patch]> (files w); dirs := dirs w;
             saved := saved w ++ [(path, patch)] |}).

(** A [for] loop whose body may [break]. *)
Inductive ctl : Type := Continue | Break.

Fixpoint for_break {S : Type} (l : list Z) (body : Z → S → io (ctl * S))
    (s : S) : io S :=
  match l with
  | [] => mret s
  | x :: l' =>
      r ← body x s;
      match r with
      | (Break, s') => mret s'
      | (Continue, s') => for_break l' body s'
      end
  end.

(** ** The function (image.py, lines 6-131) *)

Section Extract.
Variables (img : image) (width height target_N patch_size : Z).
Variables (output_dir base_name : string).

(** Lines 103-113: the crop box, the crop, the resize when needed. *)
Definition crop_box (i j : Z) : Z * Z * Z * Z :=
  let left := j * patch_size in
  let top := i * patch_size in
  let right := Z.min (left + patch_size) width in
  let bottom := Z.min (top + patch_size) height in
  (left, top, right, bottom).

Definition make_patch (i j : Z) : image :=
  let patch := Crop img (crop_box i j) in
  if negb (fst (image_size patch) =? patch_size)
     || negb (snd (image_size patch) =? patch_size)
  then Resize patch (patch_size, patch_size)
  else patch.

(** Lines 116-117. *)
Definition patch_path (i j : Z) : string :=
  let patch_filename :=
    base_name +:+ "_patch_" +:+ py_str i +:+ "_" +:+ py_str j +:+ ".png" in
  os_path_join output_dir patch_filename.

(** Lines 97-120: the inner loop's body. *)
Definition emit_patch (i j : Z) (patch_count : Z) : io (ctl * Z) :=
  if patch_count >=? target_N then mret (Break, patch_count)
  else
    _ ← Image_save (make_patch i j) (patch_path i j);
    mret (Continue, patch_count + 1).

(** Lines 96-123: the outer loop's body. *)
Definition emit_row (num_patches_x : Z) (i : Z) (patch_count : Z)
    : io (ctl * Z) :=
  patch_count ← for_break (py_range 0 num_patches_x) (emit_patch i)
                  patch_count;
  if patch_count >=? target_N then mret (Break, patch_count)
  else mret (Continue, patch_count).

Definition emit_patches (num_patches_y num_patches_x : Z) : io Z :=
  for_break (py_range 0 num_patches_y) (emit_row num_patches_x) 0.
End Extract.

Definition not_found_message (image_path : string) : string :=
  "Image file not found: " +:+ image_path +:+ newline +:+
  "Please ensure the image file exists at the specified path.".

(** Lines 31-32: the directory the patches go to. *)
Definition resolve_output_dir (image_path : string)
    (output_dir : option string) : string :=
  match output_dir with
  | None =>
      let d := os_path_dirname image_path in
      if String.eqb d "" then "." else d
  | Some d => d
  end.

(** Line 37: the file name without its extension. *)
Definition base_name_of (image_path : string) : string :=
  fst (os_path_splitext (os_path_basename image_path)).

Definition divide_image_into_patches (image_path : string) (target_N : Z)
    (output_dir : option string) : io Z :=
  found ← os_path_exists image_path;
  if negb found then
    io_raise (FileNotFoundError (not_found_message image_path))
  else
    img ← Image_open image_path;
    let '(width, height) := image_size img in
    let output_dir := resolve_output_dir image_path output_dir in
    _ ← os_makedirs output_dir;
    let base_name := base_name_of image_path in
    layout ← io_lift (plan_grid width height target_N);
    let '(num_patches_y, num_patches_x, patch_size) := layout in
    emit_patches img width height target_N patch_size output_dir base_name
      num_patches_y num_patches_x.

(** ** The script (image.py, lines 134-156) *)

(** How the process ends: [sys.exit], the end of the script, or an
    exception nobody caught. *)
Inductive outcome : Type :=
  | Exit (status : Z)
  | Finished (patches_created : Z)
  | Uncaught (e : exn).

(** [script_dir] stands for [os.path.dirname(os.path.abspath(__file__))]. *)
Definition main (script_dir : string) (w : world) : outcome * world :=
  let image_path := "drone_01.JPG" in
  let target_N := 9 in
  let image_full_path := os_path_join script_dir image_path in
  match os_path_exists image_full_path w with
  | (Raise e, w) => (Uncaught e, w)
  | (Ok false, w) => (Exit 1, w)
  | (Ok true, w) =>
      let patch_dir := os_path_join script_dir "patch" in
      match divide_image_into_patches image_full_path target_N
              (Some patch_dir) w with
      | (Ok patches_created, w) => (Finished patches_created, w)
      | (Raise e, w) => (Uncaught e, w)
      end
  end.

(** ** The planner as the specification words it (steps 1 to 5) *)

Section PlannerSpec.
Variables width height targetCount : Z.

(** Step 1: the rows enumerated. *)
Definition candidate_rows : list Z :=
  filter (λ rows, targetCount `mod` rows = 0)
         (seqZ 1 (Z.sqrt targetCount + 1)).

Definition columns_of (rows : Z) : Z := targetCount / rows.

(** Step 2. *)
Definition patchHeightCandidate (rows : Z) : Z := height / rows.
Definition patchWidthCandidate (rows : Z) : Z := width / columns_of rows.
Definition edgeCandidate (rows : Z) : Z :=
  Z.min (patchHeightCandidate rows) (patchWidthCandidate rows).

(** Step 3. *)
Definition achievedCount (rows : Z) : Z :=
  (height / edgeCandidate rows) * (width / edgeCandidate rows).

(** Step 4. *)
Definition squareness (rows : Z) : Z :=
  Z.abs (patchHeightCandidate rows - patchWidthCandidate rows).

Definition candidate_score (rows : Z) : Z :=
  if decide (achievedCount rows = targetCount) then squareness rows
  else Z.abs (achievedCount rows - targetCount) * 1000 + squareness rows.

(** Step 5: lowest score among the candidates of positive edge, the
    smaller [rows] on a tie. *)
Definition lowest_score (rows : Z) : Prop :=
  rows ∈ candidate_rows ∧ 0 < edgeCandidate rows ∧
  ∀ rows', rows' ∈ candidate_rows → 0 < edgeCandidate rows' →
    candidate_score rows ≤ candidate_score rows' ∧
    (candidate_score rows' = candidate_score rows → rows ≤ rows').

Definition planned (rows : Z) : Z * Z * Z :=
  (rows, columns_of rows, edgeCandidate rows).
End PlannerSpec.

(** ** The loop body in terms of the specification's quantities *)

Definition improved (width height target_N rows : Z) (st : search) : search :=
  if score_lt (candidate_score width height target_N rows) (best_score st)
     && (0 <? edgeCandidate width height target_N rows)
  then {| best_arrangement := Some (planned width height target_N rows);
          best_score := Fin (candidate_score width height target_N rows) |}
  else st.

(** What the loop leaves in [st'] after the rows of [l], started in [st]:
    either [st] itself, no row of [l] having improved on it, or the first
    of the rows of [l] of lowest score. *)
Section LoopOutcome.
Variables width height target_N : Z.
Variables (l : list Z) (st st' : search).

Definition kept : Prop :=
  st' = st ∧
  ∀ rows, rows ∈ l → target_N `mod` rows = 0 →
    0 < edgeCandidate width height target_N rows →
    score_lt (candidate_score width height target_N rows) (best_score st)
    = false.

Definition replaced : Prop :=
  ∃ rows, rows ∈ l ∧ target_N `mod` rows = 0 ∧
    0 < edgeCandidate width height target_N rows ∧
    score_lt (candidate_score width height target_N rows) (best_score st)
    = true ∧
    st' = {| best_arrangement := Some (planned width height target_N rows);
             best_score :=
               Fin (candidate_score width height target_N rows) |} ∧
    ∀ rows', rows' ∈ l → target_N `mod` rows' = 0 →
      0 < edgeCandidate width height target_N rows' →
      candidate_score width height target_N rows
      ≤ candidate_score width height target_N rows' ∧
      (candidate_score width height target_N rows'
       = candidate_score width height target_N rows → rows ≤ rows').
End LoopOutcome.

(** ** What a run leaves behind *)

(** The cells of a grid, row by row. *)
Definition row_major (rows columns : Z) : list (Z * Z) :=
  i ← seqZ 0 rows; (λ j, (i, j)) <$> seqZ 0 columns.

(** The world after the files [ps] were saved, in that order. *)
Definition after_saving (ps : list (string * image)) (w : world) : world :=
  {| files := foldl (λ m p, <[p.1 := p.2]> m) (files w) ps;
     dirs := dirs w;
     saved := saved w ++ ps |}.

(** The file written for the cell [(i, j)]. *)
Definition patch_file (img : image) (width height patch_size : Z)
    (output_dir base_name : string) (cell : Z * Z) : string * image :=
  (patch_path output_dir base_name cell.1 cell.2,
   make_patch img width height patch_size cell.1 cell.2).

(** ** Two small worlds to run the function in *)

Definition empty_world : world :=
  {| files := ∅; dirs := ∅; saved := [] |}.

(** One 1000 by 1000 image in the directory [/data]. *)
Definition drone_world : world :=
  {| files := {[ "/data/drone_01.JPG" := Decoded 1000 1000 ]};
     dirs := {[ "/data" ]};
     saved := [] |}.

(** * Properties *)

(** ** The loop body in closed form *)

Section SearchFacts.
Variables width height target_N : Z.

Abbreviation edge := (edgeCandidate width height target_N).
Abbreviation score := (candidate_score width height target_N).
Abbreviation attempt := (try_arrangement width height target_N).
Abbreviation improve := (improved width height target_N).

Lemma score_of_spec rows :
  score_of target_N
    ((width / edge rows) * (height / edge rows))
    (height / rows) (width / (target_N / rows)) = score rows.
Proof.
  unfold score_of, candidate_score, achievedCount, squareness,
    patchHeightCandidate, patchWidthCandidate, columns_of.
  rewrite (Z.mul_comm (width / _)).
  case_decide as Heq.
  - by rewrite Heq, Z.eqb_refl.
  - by apply Z.eqb_neq in Heq as ->.
Qed.

Lemma try_arrangement_skip rows st :
  rows ≠ 0 → target_N `mod` rows ≠ 0 → attempt rows st = Ok st.
Proof.
  intros Hr Hm. unfold try_arrangement, py_mod.
  apply Z.eqb_neq in Hr as ->. simpl.
  by apply Z.eqb_neq in Hm as ->.
Qed.

Lemma try_arrangement_zero_edge rows st :
  rows ≠ 0 → target_N `mod` rows = 0 → edge rows = 0 →
  attempt rows st = Raise ZeroDivisionError.
Proof.
  intros Hr Hm He. unfold try_arrangement, py_mod, py_floordiv.
  apply Z.eqb_neq in Hr as ->. simpl. rewrite Hm. simpl.
  destruct (target_N / rows =? 0) eqn:Hc; [done|]. simpl.
  unfold edgeCandidate, patchHeightCandidate, patchWidthCandidate,
    columns_of in He.
  by rewrite He.
Qed.

Lemma try_arrangement_step rows st :
  rows ≠ 0 → target_N `mod` rows = 0 → target_N / rows ≠ 0 →
  edge rows ≠ 0 → attempt rows st = Ok (improve rows st).
Proof.
  intros Hr Hm Hc He. unfold try_arrangement, py_mod, py_floordiv.
  apply Z.eqb_neq in Hr as ->. simpl. rewrite Hm. simpl.
  apply Z.eqb_neq in Hc as ->. simpl.
  pose proof He as He'. apply Z.eqb_neq in He'.
  unfold edgeCandidate, patchHeightCandidate, patchWidthCandidate,
    columns_of in He'.
  rewrite He'. simpl.
  change (Z.min (height / rows) (width / (target_N / rows)))
    with (edge rows).
  rewrite score_of_spec. unfold improved, planned, columns_of.
  by destruct (_ && _).
Qed.

(** *** The loop over a list of rows *)

Hypothesis target_pos : 0 < target_N.

Lemma columns_nonzero rows :
  rows ≠ 0 → target_N `mod` rows = 0 → target_N / rows ≠ 0.
Proof.
  intros Hr Hm Hc. pose proof (Z_div_exact_full_2 _ _ Hr Hm) as Hex.
  rewrite Hc in Hex. lia.
Qed.

(** A candidate of edge zero anywhere in the list stops the loop. *)
Lemma for_in_zero_edge l st :
  Forall (λ rows, rows ≠ 0) l →
  (∃ rows, rows ∈ l ∧ target_N `mod` rows = 0 ∧ edge rows = 0) →
  for_in l attempt st = Raise ZeroDivisionError.
Proof.
  intros Hl. revert st. induction Hl as [|x l Hx Hl IH]; intros st Hex.
  - destruct Hex as (r & Hr & _). by apply elem_of_nil in Hr.
  - simpl. destruct (decide (target_N `mod` x = 0)) as [Hm|Hm].
    + destruct (decide (edge x = 0)) as [He|He].
      * by rewrite try_arrangement_zero_edge.
      * rewrite try_arrangement_step by auto using columns_nonzero.
        simpl. apply IH. destruct Hex as (r & Hr & Hrm & Hre).
        apply elem_of_cons in Hr as [->|Hr]; [done|eauto].
    + rewrite try_arrangement_skip by done. simpl. apply IH.
      destruct Hex as (r & Hr & Hrm & Hre).
      apply elem_of_cons in Hr as [->|Hr]; [done|eauto].
Qed.

Lemma for_in_search l st :
  StronglySorted Z.lt l →
  Forall (λ rows, rows ≠ 0) l →
  (∀ rows, rows ∈ l → target_N `mod` rows = 0 → edge rows ≠ 0) →
  ∃ st', for_in l attempt st = Ok st' ∧
    (kept width height target_N l st st'
     ∨ replaced width height target_N l st st').
Proof.
  intros Hs. revert st.
  induction Hs as [|x l Hs IH Hlt]; intros st Hnz He.
  - exists st. split; [done|]. left. split; [done|].
    intros r Hr. by apply elem_of_nil in Hr.
  - apply Forall_cons in Hnz as [Hx Hnz]. simpl.
    assert (∀ rows, rows ∈ l → target_N `mod` rows = 0 → edge rows ≠ 0)
      as He' by (intros; apply He; [by right|done]).
    rewrite Forall_forall in Hlt.
    destruct (decide (target_N `mod` x = 0)) as [Hm|Hm]; cycle 1.
    { rewrite try_arrangement_skip by done. simpl.
      destruct (IH st Hnz He') as (st' & -> & [[-> Hk]|Hrep]);
        eexists; (split; [done|]).
      - left. split; [done|]. intros r [->|Hr]%elem_of_cons; eauto. done.
      - right. destruct Hrep as (r & Hr & ? & ? & ? & ? & Hmin).
        exists r. split_and!; [by right|done..|].
        intros r' [->|Hr']%elem_of_cons; eauto. done. }
    assert (edge x ≠ 0) as Hex by (apply He; [by left|done]).
    rewrite try_arrangement_step by auto using columns_nonzero.
    simpl. unfold improved.
    destruct (score_lt (score x) (best_score st) && (0 <? edge x))
      eqn:Hbetter.
    + apply andb_true_iff in Hbetter as [Hsc Hpos%Z.ltb_lt].
      destruct (IH {| best_arrangement :=
                        Some (planned width height target_N x);
                      best_score := Fin (score x) |} Hnz He')
        as (st' & -> & [[-> Hk]|Hrep]); eexists; (split; [done|]); right.
      * exists x. split_and!; [by left|done..|].
        intros r' [->|Hr']%elem_of_cons Hm' He''; [lia|].
        specialize (Hk r' Hr' Hm' He''). simpl in Hk.
        apply Z.ltb_ge in Hk. specialize (Hlt r' Hr'). lia.
      * destruct Hrep as (r & Hr & ? & ? & Hlt' & ? & Hmin).
        simpl in Hlt'. apply Z.ltb_lt in Hlt'.
        exists r. split_and!; [by right|done..| |done|].
        { destruct (best_score st); simpl in *; [done|].
          apply Z.ltb_lt in Hsc. apply Z.ltb_lt. lia. }
        intros r' [->|Hr']%elem_of_cons Hm' He''; [lia|eauto].
    + destruct (IH st Hnz He') as (st' & -> & [[-> Hk]|Hrep]);
        eexists; (split; [done|]).
      * left. split; [done|].
        intros r [->|Hr]%elem_of_cons Hm' He''; [|eauto].
        apply andb_false_iff in Hbetter as [?|Hn%Z.ltb_ge]; [done|lia].
      * right. destruct Hrep as (r & Hr & ? & ? & Hlt' & ? & Hmin).
        exists r. split_and!; [by right|done..|].
        intros r' [->|Hr']%elem_of_cons Hm' He''; [|eauto].
        apply andb_false_iff in Hbetter as [Hb|Hn%Z.ltb_ge]; [|lia].
        destruct (best_score st); simpl in *; [done|].
        apply Z.ltb_lt in Hlt'. apply Z.ltb_ge in Hb. lia.
Qed.
End SearchFacts.

(** ** The whole search *)

Lemma seqZ_sorted m n : StronglySorted Z.lt (seqZ m n).
Proof.
  remember (Z.to_nat n) as k eqn:Hk. revert m n Hk.
  induction k as [|k IH]; intros m n Hk.
  - rewrite seqZ_nil by lia. constructor.
  - rewrite seqZ_cons by lia. constructor; [apply IH; lia|].
    apply Forall_seqZ. lia.
Qed.

Lemma elem_of_candidate_rows t rows :
  rows ∈ candidate_rows t ↔
  1 ≤ rows ≤ Z.sqrt t + 1 ∧ t `mod` rows = 0.
Proof.
  unfold candidate_rows. rewrite list_elem_of_filter, elem_of_seqZ. lia.
Qed.

Lemma one_candidate t : 0 ≤ t → 1 ∈ candidate_rows t.
Proof.
  intros Ht. apply elem_of_candidate_rows.
  pose proof (Z.sqrt_nonneg t). rewrite Z.mod_1_r. lia.
Qed.

Section PlannerFacts.
Variables width height target_N : Z.
Hypothesis target_pos : 0 < target_N.

Abbreviation edge' := (edgeCandidate width height target_N).
Abbreviation score' := (candidate_score width height target_N).

Lemma search_arrangements_unfold :
  search_arrangements width height target_N =
  for_in (seqZ 1 (Z.sqrt target_N + 1))
    (try_arrangement width height target_N) search_init.
Proof.
  unfold search_arrangements, py_int_sqrt, py_range.
  destruct (target_N <? 0) eqn:Hneg; [lia|]. simpl.
  by replace (Z.sqrt target_N + 2 - 1) with (Z.sqrt target_N + 1) by lia.
Qed.

(** A candidate of edge zero makes the search raise. *)
Lemma search_arrangements_zero_edge :
  (∃ rows, rows ∈ candidate_rows target_N ∧ edge' rows = 0) →
  search_arrangements width height target_N = Raise ZeroDivisionError.
Proof.
  intros (r & [Hr Hm]%elem_of_candidate_rows & He).
  rewrite search_arrangements_unfold. apply for_in_zero_edge; [done| |].
  - apply Forall_seqZ. lia.
  - exists r. split_and!; [|done..]. apply elem_of_seqZ. lia.
Qed.

(** Without one, it ends with the first candidate of lowest score. *)
Lemma search_arrangements_lowest :
  (∀ rows, rows ∈ candidate_rows target_N → 0 < edge' rows) →
  ∃ rows, lowest_score width height target_N rows ∧
    search_arrangements width height target_N =
    Ok {| best_arrangement := Some (planned width height target_N rows);
          best_score := Fin (score' rows) |}.
Proof.
  intros Hpos. rewrite search_arrangements_unfold.
  assert (∀ r, r ∈ seqZ 1 (Z.sqrt target_N + 1) → target_N `mod` r = 0 →
               r ∈ candidate_rows target_N) as Hcand.
  { intros r Hr Hm. apply elem_of_candidate_rows.
    apply elem_of_seqZ in Hr. lia. }
  destruct (for_in_search width height target_N target_pos
              (seqZ 1 (Z.sqrt target_N + 1)) search_init)
    as (st' & Hrun & Hout).
  { apply seqZ_sorted. }
  { apply Forall_seqZ. lia. }
  { intros r Hr Hm. specialize (Hpos r (Hcand r Hr Hm)). lia. }
  rewrite Hrun. destruct Hout as [[-> Hk]|Hrep].
  - exfalso. specialize (Hk 1). simpl in Hk.
    assert (true = false); [|done]. apply Hk.
    + apply elem_of_seqZ. pose proof (Z.sqrt_nonneg target_N). lia.
    + apply Z.mod_1_r.
    + apply Hpos, one_candidate. lia.
  - destruct Hrep as (r & Hr & Hm & He & _ & -> & Hmin).
    exists r. split; [|done]. split_and!; [by apply Hcand|done|].
    intros r' [Hr' Hm']%elem_of_candidate_rows He'.
    apply Hmin; [apply elem_of_seqZ; lia|done..].
Qed.
End PlannerFacts.

(** ** The planner's result *)

Lemma edge_nonneg width height target_N rows :
  0 < width → 0 < height → 0 < target_N → 1 ≤ rows →
  0 ≤ edgeCandidate width height target_N rows.
Proof.
  intros. unfold edgeCandidate, patchHeightCandidate, patchWidthCandidate,
    columns_of.
  apply Z.min_glb; apply Z_div_nonneg_nonneg; try lia.
  apply Z_div_nonneg_nonneg; lia.
Qed.

Lemma search_arrangements_zero width height :
  search_arrangements width height 0 = Raise ZeroDivisionError.
Proof. reflexivity. Qed.

Lemma search_arrangements_negative width height target_N :
  target_N < 0 → search_arrangements width height target_N = Raise ValueError.
Proof.
  intros Hneg. unfold search_arrangements, py_int_sqrt.
  by apply Z.ltb_lt in Hneg as ->.
Qed.

(** On an image of positive size the planner returns only for a positive
    target, only when every candidate has a positive edge, and then the
    layout is the nine-patch override or the first candidate of lowest
    score: the fallback of lines 72-79 is never taken. *)
Lemma plan_grid_inv width height target_N layout :
  0 < width → 0 < height →
  plan_grid width height target_N = Ok layout →
  0 < target_N ∧
  (∀ rows, rows ∈ candidate_rows target_N →
     0 < edgeCandidate width height target_N rows) ∧
  ∃ rows, lowest_score width height target_N rows ∧
    layout = if target_N =? 9 then (3, 3, Z.min (width / 3) (height / 3))
             else planned width height target_N rows.
Proof.
  intros Hw Hh Hplan. unfold plan_grid in Hplan.
  destruct (Z.lt_trichotomy target_N 0) as [Hneg|[->|Hpos]].
  { by rewrite search_arrangements_negative in Hplan. }
  { by rewrite search_arrangements_zero in Hplan. }
  split; [done|].
  destruct (decide (Exists (λ r, edgeCandidate width height target_N r = 0)
                      (candidate_rows target_N))) as [Hex|Hall].
  { apply Exists_exists in Hex.
    by rewrite search_arrangements_zero_edge in Hplan. }
  assert (∀ rows, rows ∈ candidate_rows target_N →
            0 < edgeCandidate width height target_N rows) as Hedge.
  { intros r Hr. pose proof Hr as [Hr1 _]%elem_of_candidate_rows.
    pose proof (edge_nonneg width height target_N r).
    assert (edgeCandidate width height target_N r ≠ 0); [|lia].
    intros He. apply Hall, Exists_exists. eauto. }
  split; [done|].
  destruct (search_arrangements_lowest width height target_N Hpos Hedge)
    as (r & Hlow & Hrun).
  rewrite Hrun in Hplan. simpl in Hplan. exists r. split; [done|].
  injection Hplan as <-. unfold choose_layout. simpl.
  unfold planned. by destruct (target_N =? 9).
Qed.

Lemma lowest_score_unique width height target_N rows rows' :
  lowest_score width height target_N rows →
  lowest_score width height target_N rows' → rows = rows'.
Proof.
  intros (Hr & He & Hmin) (Hr' & He' & Hmin').
  destruct (Hmin rows' Hr' He') as [Hle Htie].
  destruct (Hmin' rows Hr He) as [Hle' Htie'].
  assert (candidate_score width height target_N rows
          = candidate_score width height target_N rows') as Heq by lia.
  specialize (Htie (eq_sym Heq)). specialize (Htie' Heq). lia.
Qed.

(** C1, as stated, at a 900 by 100 image and nine patches: the first
    candidate of lowest score is one row of nine columns, of edge 100, and
    the planner returns three rows of three columns instead. *)
Lemma plan_grid_not_lowest_900_100_9 :
  ¬ ∃ rows, lowest_score 900 100 9 rows ∧
            plan_grid 900 100 9 = Ok (planned 900 100 9 rows).
Proof.
  intros (r & (_ & _ & Hmin) & Hplan).
  assert (plan_grid 900 100 9 = Ok (3, 3, 33)) as Heq by reflexivity.
  rewrite Heq in Hplan. injection Hplan as <- _ _.
  destruct (Hmin 1) as [Hle _].
  - by apply one_candidate.
  - reflexivity.
  - vm_compute in Hle. by apply Hle.
Qed.

(** C1, amended: for a positive width, height and target count other than
    nine, when every enumerated candidate has a positive edge, the planner
    returns the candidate of lowest score among the enumerated rows (rows
    from 1 to [sqrt targetCount + 1] dividing the target, columns the
    quotient, scored as in step 4), the smallest rows on a tie. *)
Theorem plan_grid_lowest_score width height targetCount :
  0 < width → 0 < height → 0 < targetCount → targetCount ≠ 9 →
  (∀ rows, rows ∈ candidate_rows targetCount →
     0 < edgeCandidate width height targetCount rows) →
  ∃ rows, lowest_score width height targetCount rows ∧
    plan_grid width height targetCount
    = Ok (planned width height targetCount rows).
Proof.
  intros _ _ Hpos Hnine Hedge.
  destruct (search_arrangements_lowest width height targetCount Hpos Hedge)
    as (r & Hlow & Hrun).
  exists r. split; [done|]. unfold plan_grid. rewrite Hrun. simpl.
  unfold choose_layout. simpl. apply Z.eqb_neq in Hnine as ->.
  by unfold planned.
Qed.

Lemma plan_grid_lowest_score_witness :
  ∃ rows, lowest_score 1200 800 6 rows ∧
    plan_grid 1200 800 6 = Ok (planned 1200 800 6 rows).
Proof.
  apply plan_grid_lowest_score; [lia..|].
  intros rows Hrows.
  assert (rows ∈ [1; 2; 3]) as Hin by exact Hrows.
  repeat (apply elem_of_cons in Hin as [->|Hin]; [reflexivity|]).
  by apply elem_of_nil in Hin.
Defined.

(** ** Square images and perfect squares *)

Lemma div_lt_of_lt s r c : 0 < r < c → r * c ≤ s → s / c < s / r.
Proof.
  intros [Hr Hrc] Hs.
  pose proof (Z.mul_div_le s c ltac:(lia)) as Hlo.
  pose proof (Z.mul_succ_div_gt s c ltac:(lia)) as Hhi.
  assert (r ≤ s / c) by nia.
  assert (s / c + 1 ≤ s / r); [|lia].
  apply Z.div_le_lower_bound; [done|]. nia.
Qed.

Lemma div_div_self s k : 1 ≤ k → k * k ≤ s → s / (s / k) = k.
Proof.
  intros Hk Hs.
  pose proof (Z.mul_div_le s k ltac:(lia)) as Hlo.
  pose proof (Z.mul_succ_div_gt s k ltac:(lia)) as Hhi.
  assert (k ≤ s / k) by (apply Z.div_le_lower_bound; lia).
  symmetry. apply (Z.div_unique_pos s (s / k) k (s - k * (s / k))); lia.
Qed.

Lemma candidate_score_zero width height target_N rows :
  candidate_score width height target_N rows ≤ 0 →
  patchHeightCandidate height rows
  = patchWidthCandidate width target_N rows.
Proof.
  unfold candidate_score, squareness. case_decide; lia.
Qed.

(** C6: for a target count [k * k] with [k >= 1] and a square image of
    side at least [k * k], the planner returns [k] rows and [k] columns
    (of edge the side divided by [k]). *)
Theorem plan_grid_perfect_square k side :
  1 ≤ k → k * k ≤ side →
  plan_grid side side (k * k) = Ok (k, k, side / k).
Proof.
  intros Hk Hside. set (t := k * k).
  assert (0 < t) as Hpos by (unfold t; nia).
  assert (∀ rows, rows ∈ candidate_rows t →
            0 < rows ∧ 0 < t / rows ∧ rows * (t / rows) = t) as Hdiv.
  { intros r [Hr Hm]%elem_of_candidate_rows.
    pose proof (Z_div_exact_full_2 t r ltac:(lia) Hm). nia. }
  assert (∀ rows, rows ∈ candidate_rows t →
            0 < edgeCandidate side side t rows) as Hedge.
  { intros r Hr. destruct (Hdiv r Hr) as (Hr0 & Hc0 & Hrc).
    unfold edgeCandidate, patchHeightCandidate, patchWidthCandidate,
      columns_of.
    apply Z.min_glb_lt; apply Z.div_str_pos; nia. }
  assert (t / k = k) as Hcols by (unfold t; apply Z.div_mul; lia).
  assert (k ∈ candidate_rows t) as Hkin.
  { apply elem_of_candidate_rows. unfold t.
    rewrite Z.sqrt_square, Z.mod_mul by lia. lia. }
  assert (edgeCandidate side side t k = side / k) as Hek.
  { unfold edgeCandidate, patchHeightCandidate, patchWidthCandidate,
      columns_of. rewrite Hcols. apply Z.min_id. }
  assert (candidate_score side side t k = 0) as Hscore.
  { unfold candidate_score, achievedCount, squareness. rewrite Hek.
    rewrite div_div_self by done. rewrite decide_True by done.
    unfold patchHeightCandidate, patchWidthCandidate, columns_of.
    rewrite Hcols. lia. }
  destruct (search_arrangements_lowest side side t Hpos Hedge)
    as (r & (Hr & Her & Hmin) & Hrun).
  assert (r = k) as ->.
  { destruct (Hmin k Hkin (Hedge k Hkin)) as [Hle _].
    rewrite Hscore in Hle. apply candidate_score_zero in Hle.
    unfold patchHeightCandidate, patchWidthCandidate, columns_of in Hle.
    destruct (Hdiv r Hr) as (Hr0 & Hc0 & Hrc).
    destruct (Z.lt_trichotomy r (t / r)) as [Hlt|[Heq|Hgt]].
    - pose proof (div_lt_of_lt side r (t / r)). lia.
    - unfold t in *. nia.
    - pose proof (div_lt_of_lt side (t / r) r). lia. }
  unfold plan_grid. rewrite Hrun. simpl. unfold choose_layout. simpl.
  unfold columns_of. rewrite Hcols, Hek.
  destruct (t =? 9) eqn:Hnine; [|done].
  apply Z.eqb_eq in Hnine. assert (k = 3) as -> by (unfold t in *; nia).
  by rewrite Z.min_id.
Qed.

Lemma plan_grid_perfect_square_witness :
  plan_grid 100 100 (4 * 4) = Ok (4, 4, 100 / 4).
Proof. apply plan_grid_perfect_square; lia. Defined.

(** ** Where the planner raises *)

(** One row is always tried first, so an image narrower than the target
    count stops the search at once. *)
Lemma plan_grid_narrow width height target_N :
  0 < width → 0 < height → 0 < target_N → width < target_N →
  plan_grid width height target_N = Raise ZeroDivisionError.
Proof.
  intros Hw Hh Ht Hlt. unfold plan_grid.
  rewrite search_arrangements_zero_edge; [done..|].
  exists 1. split; [apply one_candidate; lia|].
  unfold edgeCandidate, patchHeightCandidate, patchWidthCandidate,
    columns_of.
  rewrite !Z.div_1_r, (Z.div_small width) by lia. lia.
Qed.

(** The fallback of lines 72-79 cannot be reached: with no candidate of
    positive edge the search has already raised. *)
Lemma plan_grid_no_fallback width height target_N :
  0 < width → 0 < height → 0 < target_N →
  (∀ rows, rows ∈ candidate_rows target_N →
     ¬ 0 < edgeCandidate width height target_N rows) →
  plan_grid width height target_N = Raise ZeroDivisionError.
Proof.
  intros Hw Hh Ht Hnone. unfold plan_grid.
  rewrite search_arrangements_zero_edge; [done..|].
  exists 1. split; [apply one_candidate; lia|].
  pose proof (edge_nonneg width height target_N 1).
  pose proof (Hnone 1 (one_candidate target_N ltac:(lia))). lia.
Qed.

(** Nine patches: the override is reached from width 9 and height 3 on. *)
Lemma plan_grid_nine width height :
  9 ≤ width → 3 ≤ height →
  plan_grid width height 9
  = Ok (3, 3, Z.min (width / 3) (height / 3)).
Proof.
  intros Hw Hh.
  destruct (search_arrangements_lowest width height 9 ltac:(lia))
    as (r & _ & Hrun).
  - intros r Hr. assert (r ∈ [1; 3]) as Hin by exact Hr.
    unfold edgeCandidate, patchHeightCandidate, patchWidthCandidate,
      columns_of.
    apply elem_of_cons in Hin as [->|Hin].
    { change (9 / 1) with 9. apply Z.min_glb_lt; apply Z.div_str_pos; lia. }
    apply elem_of_cons in Hin as [->|Hin]; [|by apply elem_of_nil in Hin].
    change (9 / 3) with 3. apply Z.min_glb_lt; apply Z.div_str_pos; lia.
  - unfold plan_grid. by rewrite Hrun.
Qed.

Lemma plan_grid_nine_small width height :
  0 < width → 0 < height → width < 9 ∨ height < 3 →
  plan_grid width height 9 = Raise ZeroDivisionError.
Proof.
  intros Hw Hh Hsmall.
  destruct (decide (width < 9)) as [Hlt|Hge];
    [by apply plan_grid_narrow|].
  unfold plan_grid. rewrite search_arrangements_zero_edge; [done..|].
  exists 3. split; [by apply elem_of_candidate_rows|].
  unfold edgeCandidate, patchHeightCandidate, patchWidthCandidate,
    columns_of.
  rewrite (Z.div_small height) by lia.
  change (9 / 3) with 3. pose proof (Z.div_pos width 3). lia.
Qed.

(** C2, a failing input: a 5 by 5 image and nine patches.  The one-row
    candidate has edge [min (5 // 1) (5 // 9) = 0], so line 58 divides by
    zero before the override of line 85 is reached. *)
Theorem plan_grid_5_5_9 : plan_grid 5 5 9 = Raise ZeroDivisionError.
Proof. reflexivity. Qed.

(** C3, a failing input: a 3 by 5 image and four patches (width below the
    target count).  The planner raises ZeroDivisionError although the
    arrangement of two rows and two columns has edge 1. *)
Theorem plan_grid_3_5_4 :
  plan_grid 3 5 4 = Raise ZeroDivisionError ∧
  2 ∈ candidate_rows 4 ∧ edgeCandidate 3 5 4 2 = 1.
Proof. split_and!; [reflexivity|by apply elem_of_candidate_rows|reflexivity]. Qed.

(** C4, a failing input: a 1 by 1 image and two patches.  No enumerated
    candidate has a positive edge, and the planner raises
    ZeroDivisionError where the fallback layout was to be returned. *)
Theorem plan_grid_1_1_2 :
  (∀ rows, rows ∈ candidate_rows 2 → ¬ 0 < edgeCandidate 1 1 2 rows) ∧
  plan_grid 1 1 2 = Raise ZeroDivisionError ∧
  plan_grid 1 1 2 ≠ Ok (3, 3, Z.min (1 / 3) (1 / 3)).
Proof.
  split_and!; [|reflexivity|done].
  intros rows Hrows. assert (rows ∈ [1; 2]) as Hin by exact Hrows.
  repeat (apply elem_of_cons in Hin as [->|Hin]; [by vm_compute|]).
  by apply elem_of_nil in Hin.
Qed.

(** C8: on a 1200 by 800 image with six patches the planner returns two
    rows of three columns with edge [min (800 // 2) (1200 // 3) = 400];
    that candidate achieves six patches and has the lowest score, its
    squareness 0. *)
Theorem plan_grid_1200_800_6 :
  plan_grid 1200 800 6 = Ok (2, 3, Z.min (800 / 2) (1200 / 3)) ∧
  Z.min (800 / 2) (1200 / 3) = 400 ∧
  achievedCount 1200 800 6 2 = 6 ∧
  candidate_score 1200 800 6 2 = squareness 1200 800 6 2 ∧
  squareness 1200 800 6 2 = 0 ∧
  lowest_score 1200 800 6 2.
Proof.
  split_and!; try reflexivity.
  split_and!; [by apply elem_of_candidate_rows|reflexivity|].
  intros rows Hrows _. assert (rows ∈ [1; 2; 3]) as Hin by exact Hrows.
  repeat (apply elem_of_cons in Hin as [->|Hin]; [by vm_compute|]).
  by apply elem_of_nil in Hin.
Qed.

(** ** The emission loops *)

Lemma after_saving_nil w : after_saving [] w = w.
Proof. destruct w. unfold after_saving. simpl. by rewrite app_nil_r. Qed.

Lemma after_saving_cons p ps w :
  after_saving (p :: ps) w = after_saving ps (after_saving [p] w).
Proof. unfold after_saving. simpl. by rewrite <- app_assoc. Qed.

Lemma after_saving_app ps qs w :
  after_saving (ps ++ qs) w = after_saving qs (after_saving ps w).
Proof.
  unfold after_saving. simpl. by rewrite foldl_app, app_assoc.
Qed.

Lemma Image_save_spec patch path w :
  Image_save patch path w = (Ok (), after_saving [(path, patch)] w).
Proof. reflexivity. Qed.

Lemma io_bind_unfold {A B : Type} (m : io A) (f : A → io B) w :
  (m ≫= f) w =
  match m w with
  | (Ok a, w') => f a w'
  | (Raise e, w') => (Raise e, w')
  end.
Proof. reflexivity. Qed.

Section EmitFacts.
Variables (img : image) (width height target_N patch_size : Z).
Variables (output_dir base_name : string).

Abbreviation file_of :=
  (patch_file img width height patch_size output_dir base_name).
Abbreviation emit_cell :=
  (emit_patch img width height target_N patch_size output_dir base_name).
Abbreviation emit_cells :=
  (emit_row img width height target_N patch_size output_dir base_name).

Lemma emit_patch_break i j patch_count w :
  target_N ≤ patch_count →
  emit_cell i j patch_count w = (Ok (Break, patch_count), w).
Proof.
  intros Hge. unfold emit_patch. rewrite Z.geb_leb.
  by apply Z.leb_le in Hge as ->.
Qed.

Lemma emit_patch_save i j patch_count w :
  patch_count < target_N →
  emit_cell i j patch_count w =
  (Ok (Continue, patch_count + 1), after_saving [file_of (i, j)] w).
Proof.
  intros Hlt. unfold emit_patch. rewrite Z.geb_leb.
  by apply Z.leb_gt in Hlt as ->.
Qed.

(** The inner loop emits the cells of its row until the target is met. *)
Lemma inner_loop_spec i js patch_count w :
  let cells := take (Z.to_nat (target_N - patch_count))
                    ((λ j, (i, j)) <$> js) in
  for_break js (emit_cell i) patch_count w =
  (Ok (patch_count + Z.of_nat (length cells)),
   after_saving (file_of <$> cells) w).
Proof.
  revert patch_count w. induction js as [|j js IH]; intros pc w.
  { simpl. rewrite take_nil. simpl.
    by rewrite after_saving_nil, Z.add_0_r. }
  cbn [for_break]. rewrite io_bind_unfold.
  destruct (Z.le_gt_cases target_N pc) as [Hge|Hlt].
  - rewrite emit_patch_break by done.
    replace (Z.to_nat (target_N - pc)) with 0%nat by lia. simpl.
    by rewrite after_saving_nil, Z.add_0_r.
  - rewrite emit_patch_save by done. rewrite IH.
    replace (Z.to_nat (target_N - pc))
      with (S (Z.to_nat (target_N - (pc + 1)))) by lia.
    rewrite fmap_cons, firstn_cons, fmap_cons, length_cons.
    rewrite (after_saving_cons _ (file_of <$> _)). f_equal. f_equal. lia.
Qed.

Lemma emit_row_unfold num_patches_x i patch_count w :
  let cells := take (Z.to_nat (target_N - patch_count))
                    ((λ j, (i, j)) <$> seqZ 0 num_patches_x) in
  let patch_count' := patch_count + Z.of_nat (length cells) in
  emit_cells num_patches_x i patch_count w =
  (Ok (if target_N <=? patch_count' then Break else Continue,
       patch_count'),
   after_saving (file_of <$> cells) w).
Proof.
  unfold emit_row, py_range. rewrite Z.sub_0_r.
  rewrite io_bind_unfold, inner_loop_spec. rewrite Z.geb_leb.
  by destruct (_ <=? _).
Qed.

(** The outer loop does the same over the rows, in row-major order. *)
Lemma outer_loop_spec num_patches_x rows patch_count w :
  let cells :=
    take (Z.to_nat (target_N - patch_count))
         (i ← rows; (λ j, (i, j)) <$> seqZ 0 num_patches_x) in
  for_break rows (emit_cells num_patches_x) patch_count w =
  (Ok (patch_count + Z.of_nat (length cells)),
   after_saving (file_of <$> cells) w).
Proof.
  revert patch_count w. induction rows as [|i rows IH]; intros pc w.
  { simpl. rewrite take_nil. simpl.
    by rewrite after_saving_nil, Z.add_0_r. }
  cbn [for_break mbind list_bind].
  rewrite io_bind_unfold, emit_row_unfold.
  set (row := (λ j, (i, j)) <$> seqZ 0 num_patches_x).
  set (n := Z.to_nat (target_N - pc)).
  destruct (Z.leb_spec target_N (pc + Z.of_nat (length (take n row))))
    as [Hge|Hlt]; simpl.
  - rewrite length_take in Hge.
    by rewrite take_app_le by lia.
  - rewrite length_take in Hlt.
    rewrite IH, take_app_ge by lia.
    rewrite (take_ge row) by lia.
    rewrite fmap_app, after_saving_app, length_app.
    replace (Z.to_nat (target_N - (pc + Z.of_nat (length row))))
      with (n - length row)%nat by lia.
    f_equal. f_equal. lia.
Qed.

Lemma emit_patches_spec num_patches_y num_patches_x w :
  let cells := take (Z.to_nat target_N)
                    (row_major num_patches_y num_patches_x) in
  emit_patches img width height target_N patch_size output_dir base_name
    num_patches_y num_patches_x w =
  (Ok (Z.of_nat (length cells)), after_saving (file_of <$> cells) w).
Proof.
  unfold emit_patches, py_range. rewrite Z.sub_0_r, outer_loop_spec.
  by rewrite Z.sub_0_r.
Qed.
End EmitFacts.

(** ** The function as a whole *)

Lemma os_makedirs_ok p w w1 :
  os_makedirs p w = (Ok (), w1) →
  files w1 = files w ∧ saved w1 = saved w ∧ dirs w1 = {[p]} ∪ dirs w.
Proof.
  unfold os_makedirs.
  destruct (String.eqb p ""); [done|].
  destruct (bool_decide (p ∈ dirs w)) eqn:Hd.
  - apply bool_decide_eq_true in Hd. intros [= <-].
    split_and!; [done..|]. symmetry.
    by apply subseteq_union_1_L, singleton_subseteq_l.
  - destruct (bool_decide (p ∈ dom (files w))); [done|].
    by intros [= <-].
Qed.

Lemma plan_grid_target_pos width height target_N layout :
  plan_grid width height target_N = Ok layout → 0 < target_N.
Proof.
  unfold plan_grid. intros Hplan.
  destruct (Z.lt_trichotomy target_N 0) as [Hneg|[->|Hpos]]; [| |done].
  - by rewrite search_arrangements_negative in Hplan.
  - by rewrite search_arrangements_zero in Hplan.
Qed.

(** A run that returns has opened the image, created the directory,
    planned a grid, and saved the first [target_N] cells of it. *)
Lemma divide_image_inv image_path target_N output_dir w n w' :
  divide_image_into_patches image_path target_N output_dir w = (Ok n, w') →
  ∃ img num_patches_y num_patches_x patch_size w1,
    files w !! image_path = Some img ∧
    plan_grid (image_size img).1 (image_size img).2 target_N
    = Ok (num_patches_y, num_patches_x, patch_size) ∧
    os_makedirs (resolve_output_dir image_path output_dir) w = (Ok (), w1) ∧
    let cells := take (Z.to_nat target_N)
                      (row_major num_patches_y num_patches_x) in
    n = Z.of_nat (length cells) ∧
    w' = after_saving
           (patch_file img (image_size img).1 (image_size img).2 patch_size
              (resolve_output_dir image_path output_dir)
              (base_name_of image_path) <$> cells) w1.
Proof.
  unfold divide_image_into_patches. rewrite io_bind_unfold.
  unfold os_path_exists at 1.
  destruct (_ || _); simpl; [|done].
  rewrite io_bind_unfold. unfold Image_open at 1.
  destruct (files w !! image_path) as [img|] eqn:Himg;
    [|by destruct (bool_decide _)].
  destruct (image_size img) as [width height] eqn:Hsize.
  rewrite io_bind_unfold.
  destruct (os_makedirs _ w) as [[[]|e] w1] eqn:Hmk; [|done].
  rewrite io_bind_unfold. unfold io_lift at 1.
  destruct (plan_grid width height target_N) as [[[ny nx] ps]|e] eqn:Hplan;
    [|done].
  rewrite emit_patches_spec. intros [= <- <-].
  exists img, ny, nx, ps, w1. by rewrite Hsize.
Qed.

(** C7: when [imagePath] does not exist, the call raises
    FileNotFoundError with a message that contains the path, and the
    world is the one it started from: no directory was created, no file
    written. *)
Theorem divide_image_not_found image_path target_N output_dir w :
  image_path ∉ dom (files w) → image_path ∉ dirs w →
  ∃ msg before after,
    divide_image_into_patches image_path target_N output_dir w
    = (Raise (FileNotFoundError msg), w) ∧
    msg = before +:+ image_path +:+ after.
Proof.
  intros Hf Hd. exists (not_found_message image_path).
  eexists _, _. split; [|reflexivity].
  unfold divide_image_into_patches. rewrite io_bind_unfold.
  unfold os_path_exists.
  by rewrite (bool_decide_eq_false_2 _ Hf), (bool_decide_eq_false_2 _ Hd).
Qed.

(** ** Patch file names are pairwise distinct *)

Lemma pretty_N_go_no_char c x s :
  (∀ d, pretty_N_char d ≠ c) → has_char c s = false →
  has_char c (pretty_N_go x s) = false.
Proof.
  intros Hc. revert s.
  induction (N.lt_wf_0 x) as [x _ IH]; intros s Hs.
  destruct (decide (x = 0)%N) as [->|Hx]; [by rewrite pretty_N_go_0|].
  rewrite pretty_N_go_step by lia. apply IH; [apply N.div_lt; lia|].
  cbn [has_char]. rewrite Hs, orb_false_r. apply Ascii.eqb_neq, Hc.
Qed.

Lemma py_str_no_char c i :
  0 ≤ i → (∀ d, pretty_N_char d ≠ c) → has_char c (py_str i) = false.
Proof.
  intros Hi Hc. unfold py_str. destruct i as [|p|p]; [| |lia].
  - change (Ascii.eqb "0" c || false = false).
    rewrite orb_false_r. apply Ascii.eqb_neq, (Hc 0%N).
  - by apply pretty_N_go_no_char.
Qed.

Lemma split_at_char c a a' r r' :
  has_char c a = false → has_char c a' = false →
  a +:+ String c r = a' +:+ String c r' → a = a' ∧ r = r'.
Proof.
  revert a'. induction a as [|x a IH]; intros [|x' a']; simpl;
    intros Ha Ha' Heq.
  - by simplify_eq.
  - simplify_eq. by rewrite Ascii.eqb_refl in Ha'.
  - simplify_eq. by rewrite Ascii.eqb_refl in Ha.
  - apply orb_false_iff in Ha as [_ Ha]. apply orb_false_iff in Ha' as [_ Ha'].
    injection Heq as -> Heq. by destruct (IH a' Ha Ha' Heq) as [-> ->].
Qed.

Lemma os_path_join_inj a x y :
  starts_with_char "/" x = starts_with_char "/" y →
  os_path_join a x = os_path_join a y → x = y.
Proof.
  unfold os_path_join. intros <-.
  destruct (starts_with_char "/" x); [done|].
  destruct (_ || _); intros Heq%(inj (String.app a)); [done|].
  by simplify_eq/=.
Qed.

Lemma patch_path_inj output_dir base_name i j i' j' :
  0 ≤ i → 0 ≤ j → 0 ≤ i' → 0 ≤ j' →
  patch_path output_dir base_name i j = patch_path output_dir base_name i' j' →
  i = i' ∧ j = j'.
Proof.
  intros Hi Hj Hi' Hj'. unfold patch_path. intros Heq.
  apply os_path_join_inj in Heq; [|by destruct base_name].
  apply (inj (String.app base_name)) in Heq. simpl in Heq.
  injection Heq as Heq.
  assert (∀ d, pretty_N_char d ≠ "_"%char) as Hu
    by (intros d; unfold pretty_N_char; by repeat case_match).
  assert (∀ d, pretty_N_char d ≠ "."%char) as Hd
    by (intros d; unfold pretty_N_char; by repeat case_match).
  apply split_at_char in Heq as [Heqi Heq]; [|by apply py_str_no_char..].
  apply split_at_char in Heq as [Heqj _]; [|by apply py_str_no_char..].
  unfold py_str in *. by simplify_eq.
Qed.

Lemma elem_of_row_major rows columns i j :
  (i, j) ∈ row_major rows columns ↔ 0 ≤ i < rows ∧ 0 ≤ j < columns.
Proof.
  unfold row_major. rewrite list_elem_of_bind. split.
  - intros (i' & Hj & Hi). apply list_elem_of_fmap in Hj as (j' & [= -> ->] & Hj).
    apply elem_of_seqZ in Hi, Hj. lia.
  - intros [Hi Hj]. exists i. split; [|apply elem_of_seqZ; lia].
    apply list_elem_of_fmap. exists j. split; [done|apply elem_of_seqZ; lia].
Qed.

Lemma NoDup_row_major rows columns : NoDup (row_major rows columns).
Proof.
  apply NoDup_bind; [| |apply NoDup_seqZ].
  - intros i i' [a b] _ _ (? & [= -> ->] & _)%list_elem_of_fmap
      (? & [= -> _] & _)%list_elem_of_fmap. done.
  - intros i _. apply NoDup_fmap_2; [|apply NoDup_seqZ]. by intros ?? [=].
Qed.

(** The paths written for the cells of a grid, cut at any length. *)
Lemma NoDup_patch_paths img width height patch_size output_dir base_name
    n rows columns :
  NoDup (patch_file img width height patch_size output_dir base_name
           <$> take n (row_major rows columns)).*1.
Proof.
  rewrite <- list_fmap_compose. apply NoDup_fmap_2_strong.
  - intros [i j] [i' j'] Hc%elem_of_take Hc'%elem_of_take. simpl.
    destruct Hc as (? & Hc%list_elem_of_lookup_2 & _).
    destruct Hc' as (? & Hc'%list_elem_of_lookup_2 & _).
    apply elem_of_row_major in Hc, Hc'.
    intros Heq%patch_path_inj; [|lia..]. by destruct Heq as [-> ->].
  - eapply sublist_NoDup; [apply NoDup_row_major|apply sublist_take].
Qed.

(** ** The base name holds no separator *)

Lemma has_char_app c s1 s2 :
  has_char c (s1 +:+ s2) = has_char c s1 || has_char c s2.
Proof.
  induction s1 as [|a s1 IH]; [done|]. simpl. by rewrite IH, orb_assoc.
Qed.

Lemma rsplit_None c s : rsplit c s = None → has_char c s = false.
Proof.
  induction s as [|a s IH]; [done|]. simpl.
  destruct (rsplit c s) as [[h t]|]; [done|].
  destruct (Ascii.eqb a c); [done|]. intros _. by rewrite IH.
Qed.

Lemma rsplit_Some c s h t :
  rsplit c s = Some (h, t) → s = h +:+ String c t ∧ has_char c t = false.
Proof.
  revert h. induction s as [|a s IH]; intros h; [done|]. simpl.
  destruct (rsplit c s) as [[h' t']|] eqn:Hs.
  - intros [= <- <-]. destruct (IH h' eq_refl) as [-> Ht]. done.
  - destruct (Ascii.eqb_spec a c) as [->|]; [|done].
    intros [= <- <-]. split; [done|]. by apply rsplit_None.
Qed.

Lemma rsplit_no_char c s : has_char c s = false → rsplit c s = None.
Proof.
  induction s as [|a s IH]; [done|]. simpl.
  intros [Ha Hs]%orb_false_iff. by rewrite IH, Ha.
Qed.

Lemma base_name_no_separator image_path :
  has_char "/" (base_name_of image_path) = false.
Proof.
  unfold base_name_of, os_path_splitext.
  assert (has_char "/" (os_path_basename image_path) = false) as Hname.
  { unfold os_path_basename.
    destruct (rsplit "/" image_path) as [[h t]|] eqn:Hs.
    - by apply rsplit_Some in Hs as [_ ?].
    - by apply rsplit_None. }
  rewrite (rsplit_no_char _ _ Hname).
  destruct (rsplit "." (os_path_basename image_path)) as [[stem ext]|] eqn:Hd;
    [|done].
  destruct (all_chars "." stem); [done|]. simpl.
  apply rsplit_Some in Hd as [Heq _]. rewrite Heq, has_char_app in Hname.
  by apply orb_false_iff in Hname as [? _].
Qed.

(** A patch file lies directly in the output directory. *)
Lemma patch_path_under output_dir base_name i j :
  has_char "/" base_name = false →
  ∃ sep, (sep = "" ∨ sep = "/") ∧
    patch_path output_dir base_name i j =
    output_dir +:+ sep +:+
    (base_name +:+ "_patch_" +:+ py_str i +:+ "_" +:+ py_str j +:+ ".png").
Proof.
  intros Hbase. unfold patch_path, os_path_join.
  assert (starts_with_char "/"
            (base_name +:+ "_patch_" +:+ py_str i +:+ "_" +:+ py_str j
             +:+ ".png") = false) as ->.
  { destruct base_name as [|a b]; [done|]. simpl in *.
    by apply orb_false_iff in Hbase as [? _]. }
  destruct (_ || _); [exists ""|exists "/"]; split; auto.
Qed.

Lemma dom_after_saving ps w :
  dom (files (after_saving ps w)) = list_to_set ps.*1 ∪ dom (files w).
Proof.
  unfold after_saving. simpl. generalize (files w) as m.
  induction ps as [|[p img] ps IH]; intros m; simpl.
  - by rewrite (left_id_L ∅ (∪)).
  - rewrite IH, dom_insert_L, (assoc_L (∪)).
    by rewrite (comm_L (∪) (list_to_set ps.*1) {[p]}).
Qed.

(** ** Patches of a completed run *)

Lemma make_patch_size img width height patch_size i j :
  image_size (make_patch img width height patch_size i j)
  = (patch_size, patch_size).
Proof.
  unfold make_patch.
  destruct (negb _ || negb _) eqn:Htest; [done|].
  apply orb_false_iff in Htest as [Hw%negb_false_iff Hh%negb_false_iff].
  apply Z.eqb_eq in Hw, Hh.
  destruct (image_size _) as [a b]. simpl in *. by subst.
Qed.

Lemma make_patch_resized img width height patch_size i j :
  image_size (Crop img (crop_box width height patch_size i j))
  ≠ (patch_size, patch_size) →
  make_patch img width height patch_size i j
  = Resize (Crop img (crop_box width height patch_size i j))
      (patch_size, patch_size).
Proof.
  intros Hne. unfold make_patch.
  destruct (negb _ || negb _) eqn:Htest; [done|]. exfalso. apply Hne.
  apply orb_false_iff in Htest as [Hw%negb_false_iff Hh%negb_false_iff].
  apply Z.eqb_eq in Hw, Hh.
  destruct (image_size _) as [a b]. simpl in *. by subst.
Qed.

(** C5: a call that returns has written at most [targetCount] patch files,
    pairwise distinct, namely the first [targetCount] cells of the planned
    grid and no more, and it returns their number. *)
Theorem patch_count_capped image_path targetCount output_dir w n w' :
  divide_image_into_patches image_path targetCount output_dir w
  = (Ok n, w') →
  ∃ written rows columns,
    saved w' = saved w ++ written ∧
    NoDup written.*1 ∧
    dom (files w') = list_to_set written.*1 ∪ dom (files w) ∧
    length written
    = length (take (Z.to_nat targetCount) (row_major rows columns)) ∧
    Z.of_nat (length written) ≤ targetCount ∧
    n = Z.of_nat (length written).
Proof.
  intros (img & rows & columns & edge & w1 & _ & Hplan & Hmk & Hn & ->)
    %divide_image_inv.
  apply os_makedirs_ok in Hmk as (Hfiles & Hsaved & _).
  apply plan_grid_target_pos in Hplan.
  eexists _, rows, columns. split_and!.
  - simpl. by rewrite Hsaved.
  - apply NoDup_patch_paths.
  - by rewrite dom_after_saving, Hfiles.
  - by rewrite length_fmap.
  - rewrite length_fmap, length_take. lia.
  - by rewrite length_fmap.
Qed.

(** C9: in a call that returns, the patches saved are those of the first
    [targetCount] cells of the planned grid taken row by row; each is an
    [edge] by [edge] image, a crop of another size having been resized to
    that; and each is saved in the output directory under the name
    [<baseName>_patch_<rowIndex>_<columnIndex>.png]. *)
Theorem patches_square_and_named image_path targetCount output_dir w n w' :
  divide_image_into_patches image_path targetCount output_dir w
  = (Ok n, w') →
  ∃ img rows columns edge,
    let width := (image_size img).1 in
    let height := (image_size img).2 in
    let outputDir := resolve_output_dir image_path output_dir in
    let baseName := base_name_of image_path in
    files w !! image_path = Some img ∧
    plan_grid width height targetCount = Ok (rows, columns, edge) ∧
    saved w' = saved w ++
      ((λ cell, (os_path_join outputDir
                   (baseName +:+ "_patch_" +:+ py_str cell.1 +:+ "_"
                    +:+ py_str cell.2 +:+ ".png"),
                 make_patch img width height edge cell.1 cell.2))
       <$> take (Z.to_nat targetCount) (row_major rows columns)) ∧
    ∀ rowIndex columnIndex,
      image_size (make_patch img width height edge rowIndex columnIndex)
      = (edge, edge) ∧
      (image_size (Crop img (crop_box width height edge rowIndex columnIndex))
       ≠ (edge, edge) →
       make_patch img width height edge rowIndex columnIndex
       = Resize (Crop img (crop_box width height edge rowIndex columnIndex))
           (edge, edge)) ∧
      ∃ sep, (sep = "" ∨ sep = "/") ∧
        os_path_join outputDir
          (baseName +:+ "_patch_" +:+ py_str rowIndex +:+ "_"
           +:+ py_str columnIndex +:+ ".png")
        = outputDir +:+ sep +:+
          (baseName +:+ "_patch_" +:+ py_str rowIndex +:+ "_"
           +:+ py_str columnIndex +:+ ".png").
Proof.
  intros (img & rows & columns & edge & w1 & Himg & Hplan & Hmk & _ & ->)
    %divide_image_inv.
  apply os_makedirs_ok in Hmk as (_ & Hsaved & _).
  exists img, rows, columns, edge. simpl. split_and!; [done..| |].
  - by rewrite Hsaved.
  - intros i j. split_and!.
    + apply make_patch_size.
    + apply make_patch_resized.
    + apply patch_path_under, base_name_no_separator.
Qed.

(** On an image of positive size every cell of a returned layout is
    cropped whole. *)
Lemma layout_fits width height targetCount rows columns edge :
  0 < width → 0 < height →
  plan_grid width height targetCount = Ok (rows, columns, edge) →
  edge = Z.min (height / rows) (width / columns) ∧
  0 < edge ∧ columns * edge ≤ width ∧ rows * edge ≤ height ∧
  ∀ img rowIndex columnIndex,
    0 ≤ rowIndex < rows → 0 ≤ columnIndex < columns →
    crop_box width height edge rowIndex columnIndex
    = (columnIndex * edge, rowIndex * edge,
       columnIndex * edge + edge, rowIndex * edge + edge) ∧
    0 ≤ columnIndex * edge ∧ columnIndex * edge + edge ≤ width ∧
    0 ≤ rowIndex * edge ∧ rowIndex * edge + edge ≤ height ∧
    make_patch img width height edge rowIndex columnIndex
    = Crop img (columnIndex * edge, rowIndex * edge,
                columnIndex * edge + edge, rowIndex * edge + edge).
Proof.
  intros Hw Hh Hplan.
  assert (edge = Z.min (height / rows) (width / columns) ∧ 0 < edge
          ∧ 0 < rows ∧ 0 < columns) as (Hedge & Hpos & Hrows & Hcols).
  { destruct (plan_grid_inv _ _ _ _ Hw Hh Hplan)
      as (Ht & Hcand & r & (Hr & Her & _) & Hlayout).
    destruct (targetCount =? 9) eqn:Hnine.
    - apply Z.eqb_eq in Hnine as ->. injection Hlayout as -> -> ->.
      assert (0 < edgeCandidate width height 9 3) as H3
        by (by apply Hcand, elem_of_candidate_rows).
      unfold edgeCandidate, patchHeightCandidate, patchWidthCandidate,
        columns_of in H3. change (9 / 3) with 3 in H3. lia.
    - unfold planned in Hlayout. injection Hlayout as -> -> ->.
      apply elem_of_candidate_rows in Hr as [Hr Hm].
      pose proof (columns_nonzero targetCount Ht r ltac:(lia) Hm).
      pose proof (Z_div_nonneg_nonneg targetCount r).
      unfold columns_of. split_and!; [done|done|lia|lia]. }
  pose proof (Z.mul_div_le height rows Hrows).
  pose proof (Z.mul_div_le width columns Hcols).
  assert (columns * edge ≤ width) by nia.
  assert (rows * edge ≤ height) by nia.
  split_and!; [done..|].
  intros img i j Hi Hj.
  assert (j * edge + edge ≤ width) by nia.
  assert (i * edge + edge ≤ height) by nia.
  assert (crop_box width height edge i j
          = (j * edge, i * edge, j * edge + edge, i * edge + edge)) as Hbox.
  { unfold crop_box. by rewrite !Z.min_l by done. }
  split_and!; [done|nia|done|nia|done|].
  unfold make_patch. rewrite Hbox. simpl.
  replace (j * edge + edge - j * edge) with edge by lia.
  replace (i * edge + edge - i * edge) with edge by lia.
  by rewrite Z.eqb_refl.
Qed.

(** C10: on an image of positive size, every layout the planner returns
    has its edge equal to [min (height // rows) (width // columns)],
    positive, with [columns * edge <= width] and [rows * edge <= height];
    so for every cell of the grid the crop box is
    [(j * edge, i * edge, j * edge + edge, i * edge + edge)], inside the
    image and unclipped, and the patch is the crop itself, not resized;
    and every patch saved by a call that returns is such a crop. *)
Theorem crop_within_image width height targetCount rows columns edge :
  0 < width → 0 < height →
  plan_grid width height targetCount = Ok (rows, columns, edge) →
  (edge = Z.min (height / rows) (width / columns) ∧
   0 < edge ∧ columns * edge ≤ width ∧ rows * edge ≤ height ∧
   ∀ img rowIndex columnIndex,
     0 ≤ rowIndex < rows → 0 ≤ columnIndex < columns →
     crop_box width height edge rowIndex columnIndex
     = (columnIndex * edge, rowIndex * edge,
        columnIndex * edge + edge, rowIndex * edge + edge) ∧
     0 ≤ columnIndex * edge ∧ columnIndex * edge + edge ≤ width ∧
     0 ≤ rowIndex * edge ∧ rowIndex * edge + edge ≤ height ∧
     make_patch img width height edge rowIndex columnIndex
     = Crop img (columnIndex * edge, rowIndex * edge,
                 columnIndex * edge + edge, rowIndex * edge + edge)) ∧
  ∀ image_path output_dir img w n w',
    files w !! image_path = Some img →
    image_size img = (width, height) →
    divide_image_into_patches image_path targetCount output_dir w
    = (Ok n, w') →
    ∃ written, saved w' = saved w ++ written ∧
      ∀ path patch, (path, patch) ∈ written →
        ∃ rowIndex columnIndex,
          0 ≤ rowIndex < rows ∧ 0 ≤ columnIndex < columns ∧
          patch = Crop img (columnIndex * edge, rowIndex * edge,
                            columnIndex * edge + edge,
                            rowIndex * edge + edge).
Proof.
  intros Hw Hh Hplan.
  pose proof (layout_fits _ _ _ _ _ _ Hw Hh Hplan) as Hfits.
  split; [done|].
  destruct Hfits as (_ & _ & _ & _ & Hcells).
  intros image_path output_dir img w n w' Himg Hsize
    (img' & ny & nx & ps & w1 & Himg' & Hplan' & Hmk & _ & ->)
    %divide_image_inv.
  rewrite Himg in Himg'. injection Himg' as <-.
  rewrite Hsize in *. simpl in *.
  rewrite Hplan in Hplan'. injection Hplan' as <- <- <-.
  apply os_makedirs_ok in Hmk as (_ & Hsaved & _).
  eexists. split; [simpl; by rewrite Hsaved|].
  intros path patch ([i j] & [= -> ->] & Hcell)%list_elem_of_fmap.
  apply elem_of_take in Hcell as (? & Hcell%list_elem_of_lookup_2 & _).
  apply elem_of_row_major in Hcell as [Hi Hj].
  exists i, j. split_and!; [lia..|]. simpl.
  by destruct (Hcells img i j Hi Hj) as (_ & _ & _ & _ & _ & ->).
Qed.

(** ** The theorems at concrete inputs *)

Lemma divide_image_not_found_witness :
  ∃ msg before after,
    divide_image_into_patches "drone_01.JPG" 9 None empty_world
    = (Raise (FileNotFoundError msg), empty_world) ∧
    msg = before +:+ "drone_01.JPG" +:+ after.
Proof.
  apply divide_image_not_found; simpl.
  - rewrite dom_empty_L. apply not_elem_of_empty.
  - apply not_elem_of_empty.
Defined.

Lemma drone_run :
  divide_image_into_patches "/data/drone_01.JPG" 9 (Some "/data/patch")
    drone_world
  = (Ok 9,
     (divide_image_into_patches "/data/drone_01.JPG" 9 (Some "/data/patch")
        drone_world).2).
Proof. by vm_compute. Qed.

Lemma patch_count_capped_witness :
  ∃ written rows columns,
    saved (divide_image_into_patches "/data/drone_01.JPG" 9
             (Some "/data/patch") drone_world).2
    = saved drone_world ++ written ∧
    NoDup written.*1 ∧
    dom (files (divide_image_into_patches "/data/drone_01.JPG" 9
                  (Some "/data/patch") drone_world).2)
    = list_to_set written.*1 ∪ dom (files drone_world) ∧
    length written = length (take (Z.to_nat 9) (row_major rows columns)) ∧
    Z.of_nat (length written) ≤ 9 ∧
    9 = Z.of_nat (length written).
Proof. exact (patch_count_capped _ _ _ _ _ _ drone_run). Defined.

Lemma crop_within_image_witness :
  (333 = Z.min (1000 / 3) (1000 / 3) ∧
   0 < 333 ∧ 3 * 333 ≤ 1000 ∧ 3 * 333 ≤ 1000 ∧
   ∀ img rowIndex columnIndex,
     0 ≤ rowIndex < 3 → 0 ≤ columnIndex < 3 →
     crop_box 1000 1000 333 rowIndex columnIndex
     = (columnIndex * 333, rowIndex * 333,
        columnIndex * 333 + 333, rowIndex * 333 + 333) ∧
     0 ≤ columnIndex * 333 ∧ columnIndex * 333 + 333 ≤ 1000 ∧
     0 ≤ rowIndex * 333 ∧ rowIndex * 333 + 333 ≤ 1000 ∧
     make_patch img 1000 1000 333 rowIndex columnIndex
     = Crop img (columnIndex * 333, rowIndex * 333,
                 columnIndex * 333 + 333, rowIndex * 333 + 333)) ∧
  ∀ image_path output_dir img w n w',
    files w !! image_path = Some img →
    image_size img = (1000, 1000) →
    divide_image_into_patches image_path 9 output_dir w = (Ok n, w') →
    ∃ written, saved w' = saved w ++ written ∧
      ∀ path patch, (path, patch) ∈ written →
        ∃ rowIndex columnIndex,
          0 ≤ rowIndex < 3 ∧ 0 ≤ columnIndex < 3 ∧
          patch = Crop img (columnIndex * 333, rowIndex * 333,
                            columnIndex * 333 + 333,
                            rowIndex * 333 + 333).
Proof.
  apply (crop_within_image 1000 1000 9 3 3 333); [lia|lia|reflexivity].
Defined.

Lemma patches_square_and_named_witness :
  ∃ img rows columns edge,
    let width := (image_size img).1 in
    let height := (image_size img).2 in
    let outputDir :=
      resolve_output_dir "/data/drone_01.JPG" (Some "/data/patch") in
    let baseName := base_name_of "/data/drone_01.JPG" in
    files drone_world !! "/data/drone_01.JPG" = Some img ∧
    plan_grid width height 9 = Ok (rows, columns, edge) ∧
    saved (divide_image_into_patches "/data/drone_01.JPG" 9
             (Some "/data/patch") drone_world).2
    = saved drone_world ++
      ((λ cell, (os_path_join outputDir
                   (baseName +:+ "_patch_" +:+ py_str cell.1 +:+ "_"
                    +:+ py_str cell.2 +:+ ".png"),
                 make_patch img width height edge cell.1 cell.2))
       <$> take (Z.to_nat 9) (row_major rows columns)) ∧
    ∀ rowIndex columnIndex,
      image_size (make_patch img width height edge rowIndex columnIndex)
      = (edge, edge) ∧
      (image_size (Crop img (crop_box width height edge rowIndex columnIndex))
       ≠ (edge, edge) →
       make_patch img width height edge rowIndex columnIndex
       = Resize (Crop img (crop_box width height edge rowIndex columnIndex))
           (edge, edge)) ∧
      ∃ sep, (sep = "" ∨ sep = "/") ∧
        os_path_join outputDir
          (baseName +:+ "_patch_" +:+ py_str rowIndex +:+ "_"
           +:+ py_str columnIndex +:+ ".png")
        = outputDir +:+ sep +:+
          (baseName +:+ "_patch_" +:+ py_str rowIndex +:+ "_"
           +:+ py_str columnIndex +:+ ".png").
Proof. exact (patches_square_and_named _ _ _ _ _ _ drone_run). Defined.

(** The run on [drone_world], in full. *)
Example drone_patches :
  (divide_image_into_patches "/data/drone_01.JPG" 9 (Some "/data/patch")
     drone_world).1 = Ok 9 ∧
  saved (divide_image_into_patches "/data/drone_01.JPG" 9
           (Some "/data/patch") drone_world).2
  = [("/data/patch/drone_01_patch_0_0.png",
      Crop (Decoded 1000 1000) (0, 0, 333, 333));
     ("/data/patch/drone_01_patch_0_1.png",
      Crop (Decoded 1000 1000) (333, 0, 666, 333));
     ("/data/patch/drone_01_patch_0_2.png",
      Crop (Decoded 1000 1000) (666, 0, 999, 333));
     ("/data/patch/drone_01_patch_1_0.png",
      Crop (Decoded 1000 1000) (0, 333, 333, 666));
     ("/data/patch/drone_01_patch_1_1.png",
      Crop (Decoded 1000 1000) (333, 333, 666, 666));
     ("/data/patch/drone_01_patch_1_2.png",
      Crop (Decoded 1000 1000) (666, 333, 999, 666));
     ("/data/patch/drone_01_patch_2_0.png",
      Crop (Decoded 1000 1000) (0, 666, 333, 999));
     ("/data/patch/drone_01_patch_2_1.png",
      Crop (Decoded 1000 1000) (333, 666, 666, 999));
     ("/data/patch/drone_01_patch_2_2.png",
      Crop (Decoded 1000 1000) (666, 666, 999, 999))].
Proof. split; by vm_compute. Qed.


(** * Further properties *)

(** ** The planner's domain *)








(** ** The shape of a returned layout *)

Lemma layout_shape width height target_N rows columns edge :
  0 < width → 0 < height →
  plan_grid width height target_N = Ok (rows, columns, edge) →
  rows * columns = target_N ∧
  1 ≤ rows ≤ Z.sqrt target_N + 1 ∧ 1 ≤ columns ∧
  rows ≤ columns + 1.
Proof.
  intros Hw Hh Hplan.
  destruct (plan_grid_inv _ _ _ _ Hw Hh Hplan)
    as (Ht & _ & r & (Hr & _ & _) & Hlayout).
  destruct (target_N =? 9) eqn:Hnine.
  - apply Z.eqb_eq in Hnine as ->. injection Hlayout as -> -> ->.
    change (Z.sqrt 9) with 3. lia.
  - unfold planned, columns_of in Hlayout. injection Hlayout as -> -> ->.
    apply elem_of_candidate_rows in Hr as [Hr Hm].
    pose proof (Z_div_exact_full_2 target_N r ltac:(lia) Hm) as Hex.
    pose proof (Z.sqrt_spec target_N ltac:(lia)) as Hsqrt.
    cbv zeta in Hsqrt. clear Hplan.
    set (c := target_N / r) in *. set (s := Z.sqrt target_N) in *.
    clearbody c s. assert (1 ≤ c) by nia.
    split_and!; [lia..|].
    destruct (decide (r ≤ s)) as [Hle|Hgt].
    + assert (r * r ≤ s * s) by nia.
      assert (r ≤ c); [|lia].
      apply (Z.mul_le_mono_pos_l _ _ r); lia.
    + assert (r = s + 1) as -> by lia.
      destruct (decide (s ≤ c)); [lia|]. exfalso.
      assert ((s + 1) * c ≤ (s + 1) * (s - 1))
        by (apply Z.mul_le_mono_nonneg_l; lia).
      lia.
Qed.

(** X3: every layout returned on an image of positive size has exactly
    [target_N] cells, and at most one row more than it has columns: the
    loop of line 46 stops at [sqrt target_N + 1] rows, so a grid taller
    than that is never proposed, whatever the image. *)
Theorem plan_grid_shape width height target_N rows columns edge :
  0 < width → 0 < height →
  plan_grid width height target_N = Ok (rows, columns, edge) →
  rows * columns = target_N ∧
  1 ≤ rows ≤ Z.sqrt target_N + 1 ∧ 1 ≤ columns ∧
  rows ≤ columns + 1.
Proof.
  exact (layout_shape width height target_N rows columns edge).
Qed.

Lemma plan_grid_shape_witness :
  2 * 3 = 6 ∧ 1 ≤ 2 ≤ Z.sqrt 6 + 1 ∧ 1 ≤ 3 ∧ 2 ≤ 3 + 1.
Proof.
  apply (plan_grid_shape 1200 800 6 2 3 400); [lia|lia|reflexivity].
Defined.

(** X4: the edge returned is the largest for which [rows] by [columns]
    squares fit in the image. *)
Theorem plan_grid_edge_largest width height target_N rows columns edge :
  0 < width → 0 < height →
  plan_grid width height target_N = Ok (rows, columns, edge) →
  rows * edge ≤ height ∧ columns * edge ≤ width ∧
  ∀ e, rows * e ≤ height → columns * e ≤ width → e ≤ edge.
Proof.
  intros Hw Hh Hplan.
  destruct (layout_fits _ _ _ _ _ _ Hw Hh Hplan) as (-> & _ & ? & ? & _).
  destruct (layout_shape _ _ _ _ _ _ Hw Hh Hplan) as (_ & ? & ? & _).
  split_and!; [done..|]. intros e He1 He2.
  apply Z.min_glb; apply Z.div_le_lower_bound; lia.
Qed.

Lemma plan_grid_edge_largest_witness :
  3 * 16 ≤ 50 ∧ 3 * 16 ≤ 50 ∧
  ∀ e, 3 * e ≤ 50 → 3 * e ≤ 50 → e ≤ 16.
Proof.
  apply (plan_grid_edge_largest 50 50 9 3 3 16); [lia|lia|reflexivity].
Defined.

(** X5: when some enumerated arrangement yields exactly [target_N] patches
    with patch sides less than 1000 apart, the layout returned (the
    nine-patch override aside) yields exactly [target_N] patches too:
    [(height // edge) * (width // edge) = target_N]. *)
Theorem exact_count_preferred width height target_N rows columns edge :
  0 < width → 0 < height → target_N ≠ 9 →
  plan_grid width height target_N = Ok (rows, columns, edge) →
  (∃ r, r ∈ candidate_rows target_N ∧
        achievedCount width height target_N r = target_N ∧
        squareness width height target_N r < 1000) →
  (height / edge) * (width / edge) = target_N.
Proof.
  intros Hw Hh Hnine Hplan (r & Hr & Hexact & Hsq).
  destruct (plan_grid_inv _ _ _ _ Hw Hh Hplan)
    as (Ht & Hedge & r0 & (Hr0 & _ & Hmin) & Hlayout).
  apply Z.eqb_neq in Hnine. rewrite Hnine in Hlayout.
  unfold planned in Hlayout. injection Hlayout as -> -> ->.
  destruct (Hmin r Hr (Hedge r Hr)) as [Hle _].
  unfold candidate_score in Hle. rewrite (decide_True _ _ Hexact) in Hle.
  fold (achievedCount width height target_N r0).
  case_decide as Hr0exact; [done|].
  unfold squareness in *. lia.
Qed.

Lemma exact_count_preferred_witness :
  (800 / 400) * (1200 / 400) = 6.
Proof.
  apply (exact_count_preferred 1200 800 6 2 3 400);
    [lia|lia|lia|reflexivity|].
  exists 2. split_and!; [by apply elem_of_candidate_rows|reflexivity..].
Defined.

(** X6: a target count without a proper divisor, two apart, has one
    candidate only: the layout is a single row of [target_N] patches. *)
Theorem plan_grid_single_row width height target_N :
  0 < height → 0 < target_N → target_N ≠ 2 →
  (∀ d, 1 < d < target_N → target_N `mod` d ≠ 0) →
  target_N ≤ width →
  plan_grid width height target_N
  = Ok (1, target_N, Z.min height (width / target_N)).
Proof.
  intros Hh Ht Htwo Hprime Hwide.
  assert (∀ r, r ∈ candidate_rows target_N → r = 1) as Hone.
  { intros r [Hr Hm]%elem_of_candidate_rows.
    destruct (decide (r = 1)) as [|Hne]; [done|]. exfalso.
    destruct (decide (r < target_N)) as [Hlt|Hge];
      [apply (Hprime r); [lia|done]|].
    destruct (decide (target_N = 1)) as [->|Hone].
    { change (Z.sqrt 1) with 1 in Hr. by assert (r = 2) as -> by lia. }
    pose proof (Z.sqrt_spec target_N ltac:(lia)) as Hsqrt.
    cbv zeta in Hsqrt. set (s := Z.sqrt target_N) in *. clearbody s.
    assert ((target_N - 1) * (target_N - 1) ≤ s * s)
      by (apply Z.mul_le_mono_nonneg; lia).
    assert (3 * target_N ≤ target_N * target_N)
      by (apply Z.mul_le_mono_nonneg_r; lia).
    lia. }
  destruct (search_arrangements_lowest width height target_N Ht)
    as (r & (Hr & _) & Hrun).
  - intros r ->%Hone.
    unfold edgeCandidate, patchHeightCandidate, patchWidthCandidate,
      columns_of. rewrite !Z.div_1_r.
    apply Z.min_glb_lt; [done|]. apply Z.div_str_pos. lia.
  - apply Hone in Hr as ->. unfold plan_grid. rewrite Hrun. simpl.
    unfold choose_layout, planned, edgeCandidate, patchHeightCandidate,
      patchWidthCandidate, columns_of. simpl. rewrite !Z.div_1_r.
    destruct (Z.eqb_spec target_N 9) as [->|]; [|done].
    exfalso. by apply (Hprime 3).
Qed.

Lemma plan_grid_single_row_witness :
  plan_grid 1000 300 7 = Ok (1, 7, Z.min 300 (1000 / 7)).
Proof.
  apply plan_grid_single_row; [lia|lia|lia| |lia].
  intros d Hd.
  assert (d = 2 ∨ d = 3 ∨ d = 4 ∨ d = 5 ∨ d = 6) as Hcases by lia.
  by destruct Hcases as [->|[->|[->|[->| ->]]]].
Defined.

(** ** Running the function forwards *)

Lemma os_path_exists_file image_path img w :
  files w !! image_path = Some img →
  os_path_exists image_path w = (Ok true, w).
Proof.
  intros Himg. unfold os_path_exists.
  rewrite bool_decide_eq_true_2; [done|].
  apply elem_of_dom. by exists img.
Qed.

(** With the image in place and the directory made, the call does what
    the planner says: it raises what the planner raises, or saves the
    first [target_N] cells of the grid. *)
Lemma divide_image_run image_path target_N output_dir w img w1 :
  files w !! image_path = Some img →
  os_makedirs (resolve_output_dir image_path output_dir) w = (Ok (), w1) →
  divide_image_into_patches image_path target_N output_dir w =
  match plan_grid (image_size img).1 (image_size img).2 target_N with
  | Raise e => (Raise e, w1)
  | Ok (num_patches_y, num_patches_x, patch_size) =>
      let cells := take (Z.to_nat target_N)
                        (row_major num_patches_y num_patches_x) in
      (Ok (Z.of_nat (length cells)),
       after_saving
         (patch_file img (image_size img).1 (image_size img).2 patch_size
            (resolve_output_dir image_path output_dir)
            (base_name_of image_path) <$> cells) w1)
  end.
Proof.
  intros Himg Hmk. unfold divide_image_into_patches.
  rewrite io_bind_unfold, (os_path_exists_file _ _ _ Himg). simpl.
  rewrite io_bind_unfold. unfold Image_open at 1. rewrite Himg.
  destruct (image_size img) as [width height] eqn:Hsize.
  rewrite io_bind_unfold, Hmk, io_bind_unfold. unfold io_lift at 1. simpl.
  destruct (plan_grid width height target_N) as [[[ny nx] ps]|e]; [|done].
  by rewrite emit_patches_spec.
Qed.


Lemma length_row_major rows columns :
  length (row_major rows columns) = (Z.to_nat rows * Z.to_nat columns)%nat.
Proof.
  unfold row_major. rewrite <- (length_seqZ 0 rows).
  induction (seqZ 0 rows) as [|i l IH]; [done|].
  rewrite bind_cons, length_app, IH, length_fmap, length_seqZ. simpl. lia.
Qed.

(** ** Exactly [target_N] patches *)

(** X7: a call that returns on an image of positive size has saved every cell
    of the planned grid, [target_N] files in all, and returns [target_N]:
    the cut at [target_N] patches (lines 99 and 122) never drops a cell. *)
Theorem patch_count_exact image_path target_N output_dir w n w' img :
  files w !! image_path = Some img →
  0 < (image_size img).1 → 0 < (image_size img).2 →
  divide_image_into_patches image_path target_N output_dir w = (Ok n, w') →
  n = target_N ∧
  ∃ rows columns edge,
    plan_grid (image_size img).1 (image_size img).2 target_N
    = Ok (rows, columns, edge) ∧
    saved w' = saved w ++
      (patch_file img (image_size img).1 (image_size img).2 edge
         (resolve_output_dir image_path output_dir)
         (base_name_of image_path) <$> row_major rows columns) ∧
    length (row_major rows columns) = Z.to_nat target_N.
Proof.
  intros Himg Hw Hh
    (img' & rows & columns & edge & w1 & Himg' & Hplan & Hmk & -> & ->)
    %divide_image_inv.
  rewrite Himg in Himg'. injection Himg' as <-.
  destruct (layout_shape _ _ _ _ _ _ Hw Hh Hplan) as (Hcells & ? & ? & _).
  apply os_makedirs_ok in Hmk as (_ & Hsaved & _).
  assert (length (row_major rows columns) = Z.to_nat target_N) as Hlen.
  { rewrite length_row_major, <- Hcells. lia. }
  rewrite take_ge by lia. split; [lia|].
  exists rows, columns, edge. split_and!; [done| |done].
  simpl. by rewrite Hsaved.
Qed.

Lemma patch_count_exact_witness :
  9 = 9 ∧
  ∃ rows columns edge,
    plan_grid (image_size (Decoded 1000 1000)).1
      (image_size (Decoded 1000 1000)).2 9
    = Ok (rows, columns, edge) ∧
    saved (divide_image_into_patches "/data/drone_01.JPG" 9
             (Some "/data/patch") drone_world).2
    = saved drone_world ++
      (patch_file (Decoded 1000 1000) (image_size (Decoded 1000 1000)).1
         (image_size (Decoded 1000 1000)).2 edge
         (resolve_output_dir "/data/drone_01.JPG" (Some "/data/patch"))
         (base_name_of "/data/drone_01.JPG") <$> row_major rows columns) ∧
    length (row_major rows columns) = Z.to_nat 9.
Proof.
  apply (patch_count_exact "/data/drone_01.JPG" 9 (Some "/data/patch")
           drone_world 9 _ (Decoded 1000 1000));
    [reflexivity|simpl; lia|simpl; lia|exact drone_run].
Defined.

(** ** The files after a run *)

Lemma foldl_insert_union (ps : list (string * image)) (m : gmap string image) :
  NoDup ps.*1 →
  foldl (λ m p, <[p.1 := p.2]> m) m ps = list_to_map ps ∪ m.
Proof.
  revert m. induction ps as [|[p img] ps IH]; intros m Hnd.
  - simpl. by rewrite (left_id_L ∅ (∪)).
  - rewrite fmap_cons in Hnd. apply NoDup_cons in Hnd as [Hp Hnd].
    cbn [foldl list_to_map foldr fst snd]. rewrite IH by done.
    rewrite <- insert_union_l. symmetry. apply insert_union_r.
    by apply not_elem_of_list_to_map_1.
Qed.

Lemma lookup_after_saving_other ps w p :
  p ∉ ps.*1 → files (after_saving ps w) !! p = files w !! p.
Proof.
  unfold after_saving. simpl. generalize (files w) as m.
  induction ps as [|[q img] ps IH]; intros m Hp; [done|]. simpl in *.
  apply not_elem_of_cons in Hp as [Hne Hp].
  by rewrite IH, lookup_insert_ne.
Qed.


(** Saving the same files again changes no file. *)
Lemma files_after_saving_twice ps w :
  NoDup ps.*1 →
  files (after_saving ps (after_saving ps w)) = files (after_saving ps w).
Proof.
  intros Hnd. unfold after_saving. simpl.
  rewrite !foldl_insert_union by done.
  by rewrite (assoc_L (∪)), (idemp_L (∪)).
Qed.

(** ** The source image is not among the patches *)

Lemma rsplit_at_last c a f :
  has_char c f = false → rsplit c (a +:+ String c f) = Some (a, f).
Proof.
  intros Hf. induction a as [|x a IH]; simpl.
  - by rewrite (rsplit_no_char _ _ Hf), Ascii.eqb_refl.
  - by rewrite IH.
Qed.

Lemma string_app_assoc (a b c : string) :
  (a +:+ b) +:+ c = a +:+ (b +:+ c).
Proof.
  induction a as [|x a IH]; [done|].
  change (String x ((a +:+ b) +:+ c) = String x (a +:+ (b +:+ c))).
  by f_equal.
Qed.

Lemma string_app_nil_r (a : string) : a +:+ "" = a.
Proof.
  induction a as [|x a IH]; [done|].
  change (String x (a +:+ "") = String x a). by f_equal.
Qed.

Lemma rev_app_snoc s a acc :
  String.rev_app (s +:+ String a "") acc = String a (String.rev_app s acc).
Proof.
  revert acc. induction s as [|x s IH]; intros acc; simpl; [done|].
  by rewrite IH.
Qed.

Lemma string_snoc_cases s : s = "" ∨ ∃ s' a, s = s' +:+ String a "".
Proof.
  induction s as [|x s IH]; [by left|]. right.
  destruct IH as [->|(s' & a & ->)].
  - by exists "", x.
  - by exists (String x s'), a.
Qed.

Lemma ends_with_char_inv c s :
  ends_with_char c s = true → ∃ s', s = s' +:+ String c "".
Proof.
  unfold ends_with_char, String.rev.
  destruct (string_snoc_cases s) as [->|(s' & a & ->)]; [done|].
  rewrite rev_app_snoc. simpl. intros ->%Ascii.eqb_eq. by exists s'.
Qed.

(** The last component of a joined path is the name joined. *)
Lemma os_path_basename_join a f :
  has_char "/" f = false → os_path_basename (os_path_join a f) = f.
Proof.
  intros Hf. unfold os_path_join.
  assert (starts_with_char "/" f = false) as ->.
  { destruct f as [|x f]; [done|]. simpl in *.
    by apply orb_false_iff in Hf as [? _]. }
  unfold os_path_basename.
  destruct (String.eqb a "" || ends_with_char "/" a) eqn:Hsep.
  - apply orb_true_iff in Hsep as [->%String.eqb_eq|Hend].
    + change ("" +:+ f) with f. by rewrite (rsplit_no_char _ _ Hf).
    + apply ends_with_char_inv in Hend as [a' ->].
      rewrite string_app_assoc. change (String "/" "" +:+ f) with (String "/" f).
      by rewrite rsplit_at_last.
  - change (a +:+ "/" +:+ f) with (a +:+ String "/" f).
    by rewrite rsplit_at_last.
Qed.

(** A name is its root, or its root, a dot and more. *)
Lemma os_path_splitext_root name :
  has_char "/" name = false →
  (os_path_splitext name).1 = name ∨
  ∃ ext, name = (os_path_splitext name).1 +:+ String "." ext.
Proof.
  intros Hname. unfold os_path_splitext.
  rewrite (rsplit_no_char _ _ Hname).
  destruct (rsplit "." name) as [[stem ext]|] eqn:Hd; [|by left].
  destruct (all_chars "." stem); [by left|]. right. exists ext. simpl.
  by apply rsplit_Some in Hd as [-> _].
Qed.

Lemma os_path_basename_no_separator p :
  has_char "/" (os_path_basename p) = false.
Proof.
  unfold os_path_basename.
  destruct (rsplit "/" p) as [[h t]|] eqn:Hs.
  - by apply rsplit_Some in Hs as [_ ?].
  - by apply rsplit_None.
Qed.

Lemma patch_filename_no_separator base_name i j :
  has_char "/" base_name = false → 0 ≤ i → 0 ≤ j →
  has_char "/"
    (base_name +:+ "_patch_" +:+ py_str i +:+ "_" +:+ py_str j +:+ ".png")
  = false.
Proof.
  intros Hbase Hi Hj.
  assert (∀ d, pretty_N_char d ≠ "/"%char) as Hd
    by (intros d; unfold pretty_N_char; by repeat case_match).
  rewrite !has_char_app, Hbase, !py_str_no_char by done. done.
Qed.

Lemma image_path_not_patch_path image_path output_dir i j :
  0 ≤ i → 0 ≤ j →
  patch_path output_dir (base_name_of image_path) i j ≠ image_path.
Proof.
  intros Hi Hj Heq.
  apply (f_equal os_path_basename) in Heq. unfold patch_path in Heq.
  rewrite os_path_basename_join in Heq
    by (apply patch_filename_no_separator;
        auto using base_name_no_separator).
  unfold base_name_of in Heq.
  set (name := os_path_basename image_path) in *.
  destruct (os_path_splitext_root name) as [Hroot|[ext Hroot]].
  { apply os_path_basename_no_separator. }
  - rewrite Hroot in Heq. rewrite <- (string_app_nil_r name) in Heq at 2.
    by apply (inj (String.app name)) in Heq.
  - rewrite Hroot in Heq at 2.
    by apply (inj (String.app _)) in Heq.
Qed.

Lemma written_paths_not_image img width height patch_size output_dir
    image_path n rows columns :
  image_path ∉
    (patch_file img width height patch_size output_dir
       (base_name_of image_path) <$> take n (row_major rows columns)).*1.
Proof.
  rewrite <- list_fmap_compose.
  intros ([i j] & Heq & Hcell)%list_elem_of_fmap. simpl in Heq.
  apply elem_of_take in Hcell as (? & Hcell%list_elem_of_lookup_2 & _).
  apply elem_of_row_major in Hcell as [Hi Hj].
  symmetry in Heq. revert Heq. apply image_path_not_patch_path; lia.
Qed.

(** ** What a call changes, and what it leaves alone *)



Lemma os_makedirs_existing p w w1 w2 :
  os_makedirs p w = (Ok (), w1) → p ∈ dirs w2 →
  os_makedirs p w2 = (Ok (), w2).
Proof.
  unfold os_makedirs. destruct (String.eqb p ""); [done|].
  intros _ Hd. by rewrite bool_decide_eq_true_2.
Qed.

(** X9: calling again with the same arguments writes the same patches over
    themselves: the same count is returned, and the files and directories
    are those the first call left. *)
Theorem divide_image_idempotent image_path target_N output_dir w n w' :
  divide_image_into_patches image_path target_N output_dir w = (Ok n, w') →
  ∃ w'', divide_image_into_patches image_path target_N output_dir w'
         = (Ok n, w'') ∧
    files w'' = files w' ∧ dirs w'' = dirs w'.
Proof.
  intros (img & rows & columns & edge & w1 & Himg & Hplan & Hmk & -> & ->)
    %divide_image_inv.
  pose proof Hmk as (Hfiles & Hsaved & Hdirs)%os_makedirs_ok.
  set (ps := patch_file img _ _ edge _ _ <$> _).
  assert (files (after_saving ps w1) !! image_path = Some img) as Himg'.
  { rewrite lookup_after_saving_other, Hfiles; [done|].
    apply written_paths_not_image. }
  rewrite (divide_image_run _ _ _ _ img (after_saving ps w1) Himg').
  - rewrite Hplan. eexists. split; [done|]. split; [|done].
    apply files_after_saving_twice, NoDup_patch_paths.
  - eapply os_makedirs_existing; [exact Hmk|]. simpl. rewrite Hdirs.
    apply elem_of_union_l, elem_of_singleton. done.
Qed.

Lemma divide_image_idempotent_witness :
  ∃ w'',
    divide_image_into_patches "/data/drone_01.JPG" 9 (Some "/data/patch")
      (divide_image_into_patches "/data/drone_01.JPG" 9
         (Some "/data/patch") drone_world).2
    = (Ok 9, w'') ∧
    files w''
    = files (divide_image_into_patches "/data/drone_01.JPG" 9
               (Some "/data/patch") drone_world).2 ∧
    dirs w''
    = dirs (divide_image_into_patches "/data/drone_01.JPG" 9
              (Some "/data/patch") drone_world).2.
Proof. exact (divide_image_idempotent _ _ _ _ _ _ drone_run). Defined.

(** ** Failing after the directory was made *)



(** ** When the call returns *)



(** ** The script *)

(** X12: without [drone_01.JPG] beside the script, the process exits with
    status 1 before anything is created: the function is not called and
    no [patch] directory is made. *)
Theorem main_missing_image script_dir w :
  os_path_join script_dir "drone_01.JPG" ∉ dom (files w) →
  os_path_join script_dir "drone_01.JPG" ∉ dirs w →
  main script_dir w = (Exit 1, w).
Proof.
  intros Hf Hd. unfold main, os_path_exists.
  by rewrite (bool_decide_eq_false_2 _ Hf), (bool_decide_eq_false_2 _ Hd).
Qed.

Lemma main_missing_image_witness : main "/data" empty_world = (Exit 1, empty_world).
Proof.
  apply main_missing_image; simpl.
  - rewrite dom_empty_L. apply not_elem_of_empty.
  - apply not_elem_of_empty.
Defined.





(** ** Nine patches *)

(** X14: for nine patches on an image of positive size, the planner returns
    three rows of three columns with edge [min (width // 3) (height // 3)]
    exactly when the image is at least 9 wide and 3 high; on a smaller
    image the search of lines 46-70 raises ZeroDivisionError before the
    override of line 85. *)
Theorem plan_grid_nine_domain width height :
  0 < width → 0 < height →
  (plan_grid width height 9 = Ok (3, 3, Z.min (width / 3) (height / 3)) ↔
   9 ≤ width ∧ 3 ≤ height) ∧
  (width < 9 ∨ height < 3 →
   plan_grid width height 9 = Raise ZeroDivisionError).
Proof.
  intros Hw Hh. split; [split|].
  - intros Hplan.
    destruct (decide (9 ≤ width ∧ 3 ≤ height)) as [|Hsmall]; [done|].
    rewrite plan_grid_nine_small in Hplan by lia. done.
  - intros [? ?]. by apply plan_grid_nine.
  - by apply plan_grid_nine_small.
Qed.

Lemma plan_grid_nine_domain_witness :
  (plan_grid 50 50 9 = Ok (3, 3, Z.min (50 / 3) (50 / 3)) ↔
   9 ≤ 50 ∧ 3 ≤ 50) ∧
  (50 < 9 ∨ 50 < 3 → plan_grid 50 50 9 = Raise ZeroDivisionError).
Proof. apply plan_grid_nine_domain; lia. Defined.
